(** * Nova: the schedule commands of the Discord bot

    A shallow embedding of the calendar code of the bot
    ([utils/google_calendar.py] and [cogs/schedule_cog.py]) together with
    the properties of its date resolution, day listing, view cache and
    add / remove commands, and of the daily summary and the message
    splitter it posts with ([utils/discord_utils.py]).

    Python functions become functions of the same name. What they read
    from the outside (the wall clock, the local time zone, the dateutil
    parser, the answers of the calendar provider) is an argument or a
    field of [Collaborators]; what they do to the outside (requests to the
    provider, messages sent with [ctx.send]) is recorded in an [env] that
    is passed along. An exception is a [Raise] in a [result]. A command
    handler runs from its first line to its last without another command
    in between, and [ctx.send] delivers. *)

From Stdlib Require Import ZArith String Ascii List Bool Lia.
From Stdlib Require Import DecimalString.
From stdpp Require Import base option list gmap strings.

Local Open Scope string_scope.
Local Open Scope Z_scope.

(** ** Python strings

    A [str] is modelled by a [string] of bytes (its UTF-8 encoding); the
    operations below are the ones of [str] on ASCII text, bytes above 127
    are carried along unchanged. *)
Module PyStr.

Definition code (c : ascii) : Z := Z.of_N (N_of_ascii c).

Definition is_upper (c : ascii) : bool := (65 <=? code c) && (code c <=? 90).

Definition lower_ascii (c : ascii) : ascii :=
  if is_upper c then ascii_of_N (N_of_ascii c + 32) else c.

(** [s.lower()] *)
Fixpoint lower (s : string) : string :=
  match s with
  | EmptyString => EmptyString
  | String c r => String (lower_ascii c) (lower r)
  end.

(** The ASCII characters for which [str.isspace] holds: tab, line feed,
    vertical tab, form feed, carriage return, the four separators
    28..31 and the space. *)
Definition is_space (c : ascii) : bool :=
  ((9 <=? code c) && (code c <=? 13)) || ((28 <=? code c) && (code c <=? 32)).

Fixpoint lstrip (s : string) : string :=
  match s with
  | EmptyString => EmptyString
  | String c r => if is_space c then lstrip r else s
  end.

Fixpoint rstrip (s : string) : string :=
  match s with
  | EmptyString => EmptyString
  | String c r =>
      match rstrip r with
      | EmptyString => if is_space c then EmptyString else String c EmptyString
      | r' => String c r'
      end
  end.

(** [s.strip()] *)
Definition strip (s : string) : string := rstrip (lstrip s).

(** [s.startswith(p)] *)
Definition startswith (s p : string) : bool := String.prefix p s.

(** [sep.join(l)] *)
Definition join (sep : string) (l : list string) : string := String.concat sep l.

(** [str(n)] and the [{n}] of an f-string, for an [int]. *)
Definition str_of_int (n : Z) : string := NilZero.string_of_int (Z.to_int n).

Fixpoint zeros (n : nat) : string :=
  match n with
  | O => EmptyString
  | S k => String "0" (zeros k)
  end.

(** The [%0wd] of [strftime] for a number that is not negative. *)
Definition zero_pad (w : nat) (n : Z) : string :=
  let s := str_of_int n in
  zeros (w - String.length s) ++ s.

(** [s[:n]] *)
Definition take (n : nat) (s : string) : string := String.substring 0 n s.

(** [p in s] *)
Fixpoint contains (p s : string) : bool :=
  String.prefix p s ||
  match s with
  | EmptyString => false
  | String _ r => contains p r
  end.

(** [l.index(x)]: the first position of [x], or nothing where Python
    raises [ValueError]. *)
Fixpoint index (x : string) (l : list string) : option Z :=
  match l with
  | [] => None
  | y :: r => if String.eqb y x then Some 0 else option_map Z.succ (index x r)
  end.

End PyStr.

(** ** Exceptions and results *)

Inductive exn : Type :=
| ParserError                         (* dateutil.parser.ParserError *)
| ValueError (msg : string)
| OverflowError (msg : string)
| HttpError (status : Z) (text : string)   (* googleapiclient.errors.HttpError *)
| OtherException (text : string).

Inductive result (A : Type) : Type :=
| Return (a : A)
| Raise (e : exn).
Arguments Return {A} a.
Arguments Raise {A} e.

(** [str(e)] as the f-strings of the error messages print it. *)
Definition str_of_exn (e : exn) : string :=
  match e with
  | ParserError => "Unknown string format"
  | ValueError m => m
  | OverflowError m => m
  | HttpError _ t => t
  | OtherException t => t
  end.

(** ** datetime.date

    A [datetime.date] is represented by its proleptic Gregorian ordinal,
    [date.toordinal()]: day 1 is 0001-01-01 and [MAXORDINAL] is 9999-12-31.
    Year, month and day are derived from the ordinal the way CPython's
    [_ord2ymd] does it. *)
Module Datetime.

Abbreviation date := Z.

Definition MAXORDINAL : Z := 3652059.

Definition valid_date (d : date) : Prop := 1 <= d <= MAXORDINAL.

Definition is_leap (year : Z) : bool :=
  (year mod 4 =? 0) && (negb (year mod 100 =? 0) || (year mod 400 =? 0)).

Definition days_before_year (year : Z) : Z :=
  let y := year - 1 in y * 365 + y / 4 - y / 100 + y / 400.

Definition DAYS_IN_MONTH : list Z := [-1; 31; 28; 31; 30; 31; 30; 31; 31; 30; 31; 30; 31].
Definition DAYS_BEFORE_MONTH : list Z :=
  [-1; 0; 31; 59; 90; 120; 151; 181; 212; 243; 273; 304; 334].

Definition table (t : list Z) (i : Z) : Z := nth (Z.to_nat i) t 0.

Definition days_before_month (year month : Z) : Z :=
  table DAYS_BEFORE_MONTH month + (if (2 <? month) && is_leap year then 1 else 0).

(** [_ymd2ord]: the ordinal of a year, month and day. *)
Definition ymd2ord (year month day : Z) : date :=
  days_before_year year + days_before_month year month + day.

Definition DI400Y : Z := 146097.
Definition DI100Y : Z := 36524.
Definition DI4Y : Z := 1461.

(** [_ord2ymd]: year, month and day of an ordinal. *)
Definition ord2ymd (n : date) : Z * Z * Z :=
  let n := n - 1 in
  let n400 := n / DI400Y in let n := n mod DI400Y in
  let year := n400 * 400 + 1 in
  let n100 := n / DI100Y in let n := n mod DI100Y in
  let n4 := n / DI4Y in let n := n mod DI4Y in
  let n1 := n / 365 in let n := n mod 365 in
  let year := year + n100 * 100 + n4 * 4 + n1 in
  if (n1 =? 4) || (n100 =? 4) then (year - 1, 12, 31)
  else
    let leapyear := (n1 =? 3) && (negb (n4 =? 24) || (n100 =? 3)) in
    let month := Z.shiftr (n + 50) 5 in
    let preceding :=
      table DAYS_BEFORE_MONTH month + (if (2 <? month) && leapyear then 1 else 0) in
    if n <? preceding then
      let month := month - 1 in
      let preceding :=
        preceding - (table DAYS_IN_MONTH month + (if (month =? 2) && leapyear then 1 else 0)) in
      (year, month, n - preceding + 1)
    else (year, month, n - preceding + 1).

(** [date.weekday()]: Monday is 0 and Sunday is 6. *)
Definition weekday (d : date) : Z := (d + 6) mod 7.

(** [d + datetime.timedelta(days=n)] *)
Definition add_days (d : date) (n : Z) : result date :=
  let o := d + n in
  if (0 <? o) && (o <=? MAXORDINAL) then Return o
  else Raise (OverflowError "date value out of range").

Definition DAY_NAMES : list string :=
  ["Monday"; "Tuesday"; "Wednesday"; "Thursday"; "Friday"; "Saturday"; "Sunday"].
Definition MONTH_NAMES : list string :=
  [""; "January"; "February"; "March"; "April"; "May"; "June"; "July";
   "August"; "September"; "October"; "November"; "December"].

Definition name_at (t : list string) (i : Z) : string := nth (Z.to_nat i) t "".

(** [d.strftime('%A, %B %d, %Y')] in the C locale. CPython leaves [%Y] to
    the C library, and glibc prints the year as it is, without padding:
    the year 999 reads "999". From the year 1000 on the year has its four
    digits on every platform. *)
Definition strftime_A_B_d_Y (d : date) : string :=
  let '(y, m, dd) := ord2ymd d in
  name_at DAY_NAMES (weekday d) ++ ", " ++ name_at MONTH_NAMES m ++ " "
    ++ PyStr.zero_pad 2 dd ++ ", " ++ PyStr.str_of_int y.

(** [d.strftime('%A, %B %d')] *)
Definition strftime_A_B_d (d : date) : string :=
  let '(y, m, dd) := ord2ymd d in
  name_at DAY_NAMES (weekday d) ++ ", " ++ name_at MONTH_NAMES m ++ " "
    ++ PyStr.zero_pad 2 dd.

(** A day of the calendar: year, month and day in range, and [ymd2ord]
    leading back to the ordinal. *)
Definition well_formed_ymd (max_year : Z) (n : date) : bool :=
  let '(y, m, d) := ord2ymd n in
  (1 <=? y) && (y <=? max_year) && (1 <=? m) && (m <=? 12) && (1 <=? d) && (d <=? 31)
  && (ymd2ord y m d =? n).

(** [P] holds of the [fuel] numbers from [n] on. *)
Fixpoint all_from (fuel : nat) (n : Z) (P : Z -> bool) : bool :=
  match fuel with
  | O => true
  | S k => if P n then all_from k (n + 1) P else false
  end.

Definition is_digit (c : ascii) : bool := (48 <=? PyStr.code c) && (PyStr.code c <=? 57).

Fixpoint digits (s : string) : bool :=
  match s with
  | EmptyString => true
  | String c r => is_digit c && digits r
  end.

(** A number printed on exactly [w] digits. *)
Definition printed_on (w : nat) (n : Z) : bool :=
  (String.length (PyStr.zero_pad w n) =? w)%nat && digits (PyStr.zero_pad w n).

(** A [datetime.datetime]: the wall clock reading in microseconds, counted
    from the midnight that opens day 0, and for an aware value the UTC
    offset in seconds that its [tzinfo] gives it. *)
Record datetime : Type := { wall : Z; utcoffset : option Z }.

Definition US_PER_DAY : Z := 86400000000.

(** [datetime.datetime.combine(d, t)] for a naive time of day [us]. *)
Definition combine (d : date) (us : Z) : datetime :=
  {| wall := d * US_PER_DAY + us; utcoffset := None |}.

(** [dt.date()] *)
Definition date_of (dt : datetime) : date := wall dt / US_PER_DAY.

(** [dt + datetime.timedelta(days=n)] *)
Definition datetime_add_days (dt : datetime) (n : Z) : result datetime :=
  match add_days (date_of dt) n with
  | Return _ => Return {| wall := wall dt + n * US_PER_DAY; utcoffset := utcoffset dt |}
  | Raise e => Raise e
  end.

End Datetime.

Import Datetime.

(** ** dateutil.parser

    [parser.parse] belongs to the dateutil library. The path it takes on a
    string that is one alphabetic word naming a weekday is embedded here:
    the tokenizer yields the word as its only token, [parserinfo.weekday]
    finds it in [WEEKDAYS], and [_build_naive] adds
    [relativedelta(weekday=...)] to the default. Every other string is
    left to [rest], the remainder of the library. *)
Module Dateutil.

(** [parserinfo.WEEKDAYS] *)
Definition WEEKDAYS : list (string * string) :=
  [("Mon", "Monday"); ("Tue", "Tuesday"); ("Wed", "Wednesday"); ("Thu", "Thursday");
   ("Fri", "Friday"); ("Sat", "Saturday"); ("Sun", "Sunday")].

Fixpoint convert (t : list (string * string)) (i : Z) (name : string) : option Z :=
  match t with
  | [] => None
  | (a, b) :: r =>
      if String.eqb (PyStr.lower a) name || String.eqb (PyStr.lower b) name
      then Some i else convert r (i + 1) name
  end.

(** [parserinfo.weekday(name)]: [self._weekdays[name.lower()]], or [None]. *)
Definition info_weekday (name : string) : option Z :=
  convert WEEKDAYS 0 (PyStr.lower name).

Definition is_alpha (c : ascii) : bool :=
  ((65 <=? PyStr.code c) && (PyStr.code c <=? 90))
  || ((97 <=? PyStr.code c) && (PyStr.code c <=? 122)).

Fixpoint all_alpha (s : string) : bool :=
  match s with
  | EmptyString => true
  | String c r => is_alpha c && all_alpha r
  end.

(** A string that [_timelex.split] returns as one alphabetic token. *)
Definition is_word (s : string) : bool :=
  match s with
  | EmptyString => false
  | _ => all_alpha s
  end.

(** [dt + relativedelta(weekday=wd)]: with [n] unset the jump is
    [(7 - dt.weekday() + wd) % 7] days. *)
Definition add_relativedelta_weekday (dt : datetime) (wd : Z) : result datetime :=
  let jumpdays := (7 - weekday (date_of dt) + wd) mod 7 in
  datetime_add_days dt jumpdays.

Definition parse (rest : string -> datetime -> result datetime)
    (timestr : string) (default : datetime) : result datetime :=
  if is_word timestr then
    match info_weekday timestr with
    | Some wd => add_relativedelta_weekday default wd
    | None => rest timestr default
    end
  else rest timestr default.

End Dateutil.

(** ** Relative Date Resolver: [parse_relative_date] *)
Section Resolver.

(** [dateutil.parser.parse(timestr, default=...)] *)
Variable parser_parse : string -> datetime -> result datetime.

Definition weekdays : list string :=
  ["monday"; "tuesday"; "wednesday"; "thursday"; "friday"; "saturday"; "sunday"].

(** [today] is the reading of [datetime.date.today()]. *)
Definition parse_relative_date (today : date) (day_str : string) : result (option date) :=
  let day_str_lower := PyStr.strip (PyStr.lower day_str) in
  if String.eqb day_str_lower "today" then Return (Some today)
  else if String.eqb day_str_lower "tomorrow" then
    match add_days today 1 with
    | Return d => Return (Some d)
    | Raise e => Raise e
    end
  else if String.eqb day_str_lower "yesterday" then
    match add_days today (-1) with
    | Return d => Return (Some d)
    | Raise e => Raise e
    end
  else
    match parser_parse day_str (combine today 0) with
    | Return parsed_dt => Return (Some (date_of parsed_dt))
    | Raise ParserError =>
        match PyStr.index day_str_lower weekdays with
        | Some target_weekday =>
            let days_ahead := (target_weekday - weekday today + 7) mod 7 in
            let days_ahead := if days_ahead =? 0 then 7 else days_ahead in
            match add_days today days_ahead with
            | Return d => Return (Some d)
            | Raise e => Raise e
            end
        | None => Return None
        end
    | Raise _ => Return None
    end.

End Resolver.

(** ** The calendar provider and the chat transport *)

(** An event of the provider: its [start] and [end] carry either a
    [dateTime], the instant that the RFC 3339 text denotes in microseconds
    of UTC on the scale of [wall], or the [date] of an all-day event. *)
Inductive when : Type :=
| dateTime (instant : Z)
| date_ (d : date).

Record event : Type := {
  id : string;
  start : when;
  end_ : when;
  summary : option string
}.

(** The body that [add_calendar_event] submits. *)
Record event_body : Type := {
  body_summary : string;
  body_start : Z;
  body_end : Z;
  body_timeZone : string
}.

(** The created event, of which the code reads [htmlLink]. *)
Record created_event : Type := { htmlLink : option string }.

(** A record of the view: [(event['id'], time_str, event_summary)]. *)
Abbreviation details := (string * string * string)%type.

Inductive Service : Type := CalendarService.

Inductive call : Type :=
| events_list_call (timeMin timeMax : Z)
| events_insert_call (body : event_body)
| events_delete_call (eventId : string).

(** The collaborators of the core: the dateutil parser, the local time
    zone, the provider behind [service.events()] and the transport. *)
Class Collaborators : Type := {
  (** [dateutil.parser.parse(timestr, default=...)] *)
  parser_parse : string -> datetime -> result datetime;
  (** [tz.tzlocal()]: the UTC offset in seconds at an instant of UTC, and
      the name of the zone at a local wall clock reading. *)
  local_utcoffset : Z -> Z;
  local_tzname : Z -> string;
  (** The provider: its state and the three requests of the primary
      calendar, each answering or raising. *)
  provider : Type;
  events_list : provider -> Z -> Z -> provider * result (list event);
  events_insert : provider -> event_body -> provider * result created_event;
  events_delete : provider -> string -> provider * result unit;
  (** [send_long_message]: the chunks in which the transport delivers a text. *)
  send_long_message : string -> list string
}.

Section Bot.

Context `{C : Collaborators}.

(** What a command runs in: the provider, the requests issued so far and
    the messages delivered by [ctx.send] so far. *)
Record env : Type := {
  remote : provider;
  calls : list call;
  outbox : list string
}.

Definition send (msg : string) (e : env) : env :=
  {| remote := remote e; calls := calls e; outbox := outbox e ++ [msg] |}.

Definition send_all (msgs : list string) (e : env) : env :=
  {| remote := remote e; calls := calls e; outbox := outbox e ++ msgs |}.

Definition execute_list (timeMin timeMax : Z) (e : env) : result (list event) * env :=
  let '(p, r) := events_list (remote e) timeMin timeMax in
  (r, {| remote := p; calls := calls e ++ [events_list_call timeMin timeMax];
         outbox := outbox e |}).

Definition execute_insert (body : event_body) (e : env) : result created_event * env :=
  let '(p, r) := events_insert (remote e) body in
  (r, {| remote := p; calls := calls e ++ [events_insert_call body];
         outbox := outbox e |}).

Definition execute_delete (eventId : string) (e : env) : result unit * env :=
  let '(p, r) := events_delete (remote e) eventId in
  (r, {| remote := p; calls := calls e ++ [events_delete_call eventId];
         outbox := outbox e |}).

(** *** Event Window Fetcher: [get_events_for_day] *)

(** [dt.astimezone(local_tz)] of an instant: the local wall clock reading. *)
Definition astimezone_local (instant : Z) : Z :=
  instant + local_utcoffset instant * 1000000.

Definition hour_of (w : Z) : Z := (w / 3600000000) mod 24.
Definition minute_of (w : Z) : Z := (w / 60000000) mod 60.

(** [w.strftime('%I:%M %p')] *)
Definition strftime_I_M_p (w : Z) : string :=
  let h := hour_of w in
  let h12 := if h mod 12 =? 0 then 12 else h mod 12 in
  PyStr.zero_pad 2 h12 ++ ":" ++ PyStr.zero_pad 2 (minute_of w) ++ " "
    ++ (if h <? 12 then "AM" else "PM").

(** The time label of an event. The two local readings carry the same
    [tzinfo] object, so their difference is the one of the wall clocks;
    [int(duration.total_seconds() / 60)] truncates towards zero. The code
    divides in floating point, here the quotient is exact: the two can
    differ only for an event that lasts centuries and ends within a
    fraction of a second of a whole minute. *)
Definition time_label (ev : event) : string :=
  match start ev with
  | dateTime s =>
      let start_time_local := astimezone_local s in
      let time_str := strftime_I_M_p start_time_local in
      match end_ ev with
      | dateTime en =>
          let duration := astimezone_local en - start_time_local in
          let duration_minutes := Z.quot duration 60000000 in
          if 0 <? duration_minutes
          then time_str ++ " (" ++ PyStr.str_of_int duration_minutes ++ " min)"
          else time_str
      | date_ _ => time_str
      end
  | date_ _ => "All Day"
  end.

Definition event_summary_of (ev : event) : string :=
  match summary ev with Some s => s | None => "No Title" end.

Definition rendered_line (event_counter : Z) (time_str event_summary : string) : string :=
  "`[" ++ PyStr.str_of_int event_counter ++ "]` " ++ time_str ++ ": " ++ event_summary.

(** The record and the line of an event, the line for the event at
    position [i] of a loop whose counter starts at [n]. *)
Definition details_of (ev : event) : details :=
  (id ev, time_label ev, event_summary_of ev).

Definition line_of (n : Z) (i : nat) (ev : event) : string :=
  rendered_line (n + Z.of_nat i) (time_label ev) (event_summary_of ev).

(** The [for event in events] loop, with the three variables it updates. *)
Fixpoint render_events (events : list event) (event_counter : Z)
    (summary_lines : list string) (event_details_list : list details)
    : list string * list details :=
  match events with
  | [] => (summary_lines, event_details_list)
  | ev :: rest =>
      let time_str := time_label ev in
      let event_summary := event_summary_of ev in
      render_events rest (event_counter + 1)
        (summary_lines ++ [rendered_line event_counter time_str event_summary])
        (event_details_list ++ [(id ev, time_str, event_summary)])
  end.

Definition schedule_header (target_date : date) : string :=
  "**Schedule for " ++ strftime_A_B_d_Y target_date ++ ":**".

Definition newline : string := String "010" EmptyString.

Definition get_events_for_day (service : option Service) (target_date : date)
    (e : env) : (string * list details) * env :=
  match service with
  | None => (("Error: Calendar service not available.", []), e)
  | Some _ =>
      let start_of_day := target_date * US_PER_DAY in
      let end_of_day := target_date * US_PER_DAY + (US_PER_DAY - 1) in
      let '(r, e1) := execute_list start_of_day end_of_day e in
      match r with
      | Return [] =>
          (("No events found for " ++ strftime_A_B_d_Y target_date ++ ".", []), e1)
      | Return events =>
          let '(summary_lines, event_details_list) :=
            render_events events 1 [schedule_header target_date] [] in
          ((PyStr.join newline summary_lines, event_details_list), e1)
      | Raise (HttpError _ _ as error) =>
          (("Error: An HTTP error occurred while fetching the schedule: "
              ++ str_of_exn error, []), e1)
      | Raise ex =>
          (("An unexpected error occurred while fetching the schedule: "
              ++ str_of_exn ex, []), e1)
      end
  end.

(** *** [add_calendar_event] and [remove_calendar_event] *)

Definition MONTH_ABBR : list string :=
  [""; "Jan"; "Feb"; "Mar"; "Apr"; "May"; "Jun"; "Jul"; "Aug"; "Sep"; "Oct"; "Nov"; "Dec"].

(** [w.strftime('%b %d at %I:%M %p')] *)
Definition strftime_b_d_at (w : Z) : string :=
  let '(y, m, dd) := ord2ymd (w / US_PER_DAY) in
  name_at MONTH_ABBR m ++ " " ++ PyStr.zero_pad 2 dd ++ " at " ++ strftime_I_M_p w.

Definition str_of_link (l : option string) : string :=
  match l with Some s => s | None => "None" end.

Definition MSG_ADDED : string := "âœ… Event added: '".
Definition MSG_REMOVED : string := "ðŸ—‘ï¸ Event removed successfully.".
Definition MSG_NOT_FOUND : string :=
  "âš ï¸ Event not found. It might have been already deleted.".

(** [now] is the local wall clock reading of [datetime.datetime.now]. *)
Definition add_calendar_event (service : option Service) (now : Z)
    (summary_ : string) (start_dt end_dt : Z) (e : env) : string * env :=
  match service with
  | None => ("Error: Calendar service not available.", e)
  | Some _ =>
      let local_tz_name := local_tzname now in
      let body := {| body_summary := summary_; body_start := start_dt;
                     body_end := end_dt; body_timeZone := local_tz_name |} in
      let '(r, e1) := execute_insert body e in
      match r with
      | Return created =>
          (MSG_ADDED ++ summary_ ++ "' on " ++ strftime_b_d_at start_dt
             ++ ". Link: <" ++ str_of_link (htmlLink created) ++ ">", e1)
      | Raise (HttpError _ _ as error) =>
          ("Error: An HTTP error occurred while adding the event: " ++ str_of_exn error, e1)
      | Raise ex =>
          ("An unexpected error occurred while adding the event: " ++ str_of_exn ex, e1)
      end
  end.

Definition remove_calendar_event (service : option Service) (event_id : string)
    (e : env) : string * env :=
  match service with
  | None => ("Error: Calendar service not available.", e)
  | Some _ =>
      let '(r, e1) := execute_delete event_id e in
      match r with
      | Return _ => (MSG_REMOVED, e1)
      | Raise (HttpError status _ as error) =>
          if (status =? 404) || (status =? 410)
          then (MSG_NOT_FOUND, e1)
          else ("Error: An HTTP error occurred while removing the event: "
                  ++ str_of_exn error, e1)
      | Raise ex =>
          ("An unexpected error occurred while removing the event: " ++ str_of_exn ex, e1)
      end
  end.

(** *** The cog: [ScheduleCog] *)

Record ScheduleCog : Type := {
  calendar_service : option Service;
  last_viewed_events : gmap Z (list details)
}.

(** [ScheduleCog.__init__]: the service of the bot and an empty cache. *)
Definition ScheduleCog_init (service : option Service) : ScheduleCog :=
  {| calendar_service := service; last_viewed_events := ∅ |}.

(** [setup(bot, calendar_service)]: without a service no cog is added. *)
Definition setup (service : option Service) : option ScheduleCog :=
  match service with
  | None => None
  | Some _ => Some (ScheduleCog_init service)
  end.

(** [on_command_error] of the bot, for an exception that leaves a command. *)
Definition on_command_error (command : string) (e : env) : env :=
  send ("An internal error occurred while running the command `" ++ command
          ++ "`. Please check the logs.") e.

Definition MSG_NO_SERVICE : string :=
  "Error: Google Calendar connection is not available.".

Definition schedule_view (self : ScheduleCog) (today : date) (author : Z)
    (day_str : string) (e : env) : ScheduleCog * env :=
  match calendar_service self with
  | None => (self, send MSG_NO_SERVICE e)
  | Some _ =>
      match parse_relative_date parser_parse today day_str with
      | Raise _ => (self, on_command_error "schedule view" e)
      | Return None =>
          (self, send ("Error: Could not understand the date '" ++ day_str
                         ++ "'. Try 'today', 'tomorrow', 'monday', 'April 25', etc.") e)
      | Return (Some target_date) =>
          let e1 := send ("Fetching schedule for " ++ strftime_A_B_d_Y target_date
                            ++ " from Google Calendar...") e in
          let '((summary_text, events_details), e2) :=
            get_events_for_day (calendar_service self) target_date e1 in
          ({| calendar_service := calendar_service self;
              last_viewed_events := <[author := events_details]> (last_viewed_events self) |},
           send_all (send_long_message summary_text) e2)
      end
  end.

(** A wall clock reading that a [datetime] can hold. *)
Definition in_range (w : Z) : bool :=
  (US_PER_DAY <=? w) && (w <? (MAXORDINAL + 1) * US_PER_DAY).

(** [w.strftime('%Y-%m-%d %I:%M %p %Z')] of a local reading, the year
    without padding as in [strftime_A_B_d_Y]. *)
Definition strftime_notice (w : Z) : string :=
  let '(y, m, dd) := ord2ymd (w / US_PER_DAY) in
  PyStr.str_of_int y ++ "-" ++ PyStr.zero_pad 2 m ++ "-" ++ PyStr.zero_pad 2 dd ++ " "
    ++ strftime_I_M_p w ++ " " ++ local_tzname w.

Definition MSG_TIME_PARSE_ERROR (time_str : string) : string :=
  "Error: Could not understand the time '" ++ time_str
    ++ "'. Please use formats like '3pm', '15:00', 'tomorrow 10am', '2025-04-20 14:30'.".

Definition MSG_ADD_UNEXPECTED : string :=
  "An unexpected error occurred while adding the event.".

(** [now] is the local wall clock reading; [parser.parse] fills what the
    string leaves out from today's midnight. *)
Definition schedule_add (self : ScheduleCog) (now : Z) (summary_ time_str : string)
    (duration_minutes : Z) (e : env) : ScheduleCog * env :=
  match calendar_service self with
  | None => (self, send MSG_NO_SERVICE e)
  | Some _ =>
      match parser_parse time_str (combine (now / US_PER_DAY) 0) with
      | Return parsed =>
          let start_dt :=
            match utcoffset parsed with
            | None => wall parsed
            | Some off => astimezone_local (wall parsed - off * 1000000)
            end in
          let end_dt := start_dt + duration_minutes * 60000000 in
          if in_range start_dt && in_range end_dt then
            let e1 := send ("Adding event '" ++ summary_ ++ "' to Google Calendar for "
                              ++ strftime_notice start_dt ++ "...") e in
            let '(result_, e2) :=
              add_calendar_event (calendar_service self) now summary_ start_dt end_dt e1 in
            (self, send result_ e2)
          else (self, send MSG_ADD_UNEXPECTED e)
      | Raise ParserError => (self, send (MSG_TIME_PARSE_ERROR time_str) e)
      | Raise (ValueError ve) =>
          (self, send ("Error processing time or duration. Please check your input: " ++ ve) e)
      | Raise _ => (self, send MSG_ADD_UNEXPECTED e)
      end
  end.

Definition MSG_VIEW_FIRST : string :=
  "Please use `!schedule view` first to see the list of events and their IDs.".

Definition MSG_INVALID_ID (event_index : Z) : string :=
  "Error: Invalid ID '" ++ PyStr.str_of_int event_index
    ++ "'. Please use `!schedule view` and provide a valid number from the list.".

Definition schedule_remove (self : ScheduleCog) (author : Z) (event_index : Z)
    (e : env) : ScheduleCog * env :=
  match calendar_service self with
  | None => (self, send MSG_NO_SERVICE e)
  | Some _ =>
      match last_viewed_events self !! author with
      | None | Some [] => (self, send MSG_VIEW_FIRST e)
      | Some user_last_events =>
          let target_index := event_index - 1 in
          if (0 <=? target_index) && (target_index <? Z.of_nat (length user_last_events))
          then
            match user_last_events !! Z.to_nat target_index with
            | Some (event_id_to_remove, time_str, summary_) =>
                let e1 := send ("Attempting to remove event: ["
                                  ++ PyStr.str_of_int event_index ++ "] " ++ time_str ++ ": "
                                  ++ summary_ ++ " (ID: " ++ PyStr.take 6 event_id_to_remove
                                  ++ "...)...") e in
                let '(result_, e2) :=
                  remove_calendar_event (calendar_service self) event_id_to_remove e1 in
                (self, send result_ e2)
            | None =>
                (self, send "An unexpected error occurred while removing the event." e)
            end
          else (self, send (MSG_INVALID_ID event_index) e)
      end
  end.

(** The test of [daily_schedule_summary] for a fetch that failed. *)
Definition signals_error (summary_text : string) : bool :=
  PyStr.startswith summary_text "Error:"
  || PyStr.startswith summary_text "An unexpected error".

(** *** The running bot

    The cog exists once [setup] has added it; from then on users issue
    commands, and the calendar may change behind the bot. *)
Inductive command : Type :=
| view_command (today : date) (author : Z) (day_str : string)
| add_command (now : Z) (summary_ time_str : string) (duration_minutes : Z)
| remove_command (author : Z) (event_index : Z).

Definition run (c : command) (self : ScheduleCog) (e : env) : ScheduleCog * env :=
  match c with
  | view_command today author day_str => schedule_view self today author day_str e
  | add_command now s t d => schedule_add self now s t d e
  | remove_command author i => schedule_remove self author i e
  end.

Inductive reachable : ScheduleCog -> env -> Prop :=
| reachable_setup service self e :
    setup service = Some self -> reachable self e
| reachable_run c self e self' e' :
    reachable self e -> run c self e = (self', e') -> reachable self' e'
| reachable_remote self e p :
    reachable self e ->
    reachable self {| remote := p; calls := calls e; outbox := outbox e |}.

End Bot.

(** ** A test double of the collaborators

    An in-memory calendar for the examples: the events it holds, and the
    exception, if any, with which it answers every request. *)
Module TestDouble.

Record calendar : Type := { held : list event; failure : option exn }.

Definition list_events (c : calendar) (timeMin timeMax : Z)
    : calendar * result (list event) :=
  match failure c with
  | Some ex => (c, Raise ex)
  | None => (c, Return (held c))
  end.

Definition insert_event (c : calendar) (body : event_body)
    : calendar * result created_event :=
  match failure c with
  | Some ex => (c, Raise ex)
  | None =>
      ({| held := held c ++ [{| id := "new"; start := dateTime (body_start body);
                                end_ := dateTime (body_end body);
                                summary := Some (body_summary body) |}];
          failure := None |},
       Return {| htmlLink := Some "https://calendar.example/new" |})
  end.

Definition holds (eventId : string) (ev : event) : bool := String.eqb (id ev) eventId.

Definition delete_event (c : calendar) (eventId : string) : calendar * result unit :=
  match failure c with
  | Some ex => (c, Raise ex)
  | None =>
      if existsb (holds eventId) (held c)
      then ({| held := List.filter (fun ev => negb (holds eventId ev)) (held c);
               failure := None |}, Return tt)
      else (c, Raise (HttpError 404 "Not Found"))
  end.

(** Of dateutil only the weekday words are embedded; the double rejects
    every other string. *)
Definition rejecting (timestr : string) (default : datetime) : result datetime :=
  Raise ParserError.

(** Real dateutil reads a lone number above 31 as a year and leaves the
    OverflowError of [default.replace(year=...)] as it is when the number
    does not fit a C int. *)
Definition huge_year (timestr : string) (default : datetime) : result datetime :=
  if String.eqb timestr "999999999999999"
  then Raise (OverflowError "signed integer is greater than maximum")
  else Raise ParserError.

Definition double : Collaborators := {|
  parser_parse := Dateutil.parse rejecting;
  local_utcoffset := fun _ => 0;
  local_tzname := fun _ => "UTC";
  provider := calendar;
  events_list := list_events;
  events_insert := insert_event;
  events_delete := delete_event;
  send_long_message := fun text => [text]
|}.

Definition standup : event :=
  {| id := "ev1";
     start := dateTime (ymd2ord 2025 4 20 * US_PER_DAY + 34200000000);
     end_ := dateTime (ymd2ord 2025 4 20 * US_PER_DAY + 37800000000);
     summary := Some "Standup" |}.

Definition holiday : event :=
  {| id := "ev2"; start := date_ (ymd2ord 2025 4 20);
     end_ := date_ (ymd2ord 2025 4 21); summary := Some "Holiday" |}.

Definition review : event :=
  {| id := "ev3";
     start := dateTime (ymd2ord 2025 4 20 * US_PER_DAY + 54000000000);
     end_ := dateTime (ymd2ord 2025 4 20 * US_PER_DAY + 55800000000);
     summary := None |}.

Definition quiet (c : calendar) : @env double := @Build_env double c [] [].

(** The same double with the parser that overflows on a huge year. *)
Definition double_huge_year : Collaborators := {|
  parser_parse := Dateutil.parse huge_year;
  local_utcoffset := fun _ => 0;
  local_tzname := fun _ => "UTC";
  provider := calendar;
  events_list := list_events;
  events_insert := insert_event;
  events_delete := delete_event;
  send_long_message := fun text => [text]
|}.

Definition quiet_huge_year (c : calendar) : @env double_huge_year :=
  @Build_env double_huge_year c [] [].

Definition cog : ScheduleCog :=
  {| calendar_service := Some CalendarService; last_viewed_events := ∅ |}.

Definition three_events : calendar :=
  {| held := [standup; holiday; review]; failure := None |}.

Definition outage : calendar :=
  {| held := [standup; holiday; review];
     failure := Some (HttpError 503 "Service Unavailable") |}.

Definition gone : calendar :=
  {| held := []; failure := Some (HttpError 410 "Gone") |}.

Definition one_event : calendar := {| held := [holiday]; failure := None |}.

Definition empty_day : calendar := {| held := []; failure := None |}.

Definition day : date := ymd2ord 2025 4 20.

(** User 7 views 20 April 2025, a day with three events. *)
Definition viewed : ScheduleCog * @env double :=
  schedule_view cog day 7 "today" (quiet three_events).

(** The provider then stops answering. *)
Definition during_outage : @env double :=
  @Build_env double outage (calls (snd viewed)) (outbox (snd viewed)).

End TestDouble.

(** ** Notions of the specification *)

(** [any_case s w]: [s] spells the lower-case word [w], each letter in
    either case. *)
Inductive any_case : string -> string -> Prop :=
| any_case_nil : any_case "" ""
| any_case_small c s w : any_case s w -> any_case (String c s) (String c w)
| any_case_capital c c' s w :
    97 <= PyStr.code c' <= 122 -> PyStr.code c = PyStr.code c' - 32 ->
    any_case s w -> any_case (String c s) (String c' w).

(** A word written without capital letters. *)
Fixpoint no_capital (w : string) : bool :=
  match w with
  | EmptyString => true
  | String c r => negb (PyStr.is_upper c) && no_capital r
  end.

(** The spec's words for a rendered line: [[<index>] <time-label>: <title>]. *)
Definition spec_rendered_line (index : Z) (time_label_ title : string) : string :=
  "[" ++ PyStr.str_of_int index ++ "] " ++ time_label_ ++ ": " ++ title.

(** The spec's words for an error naming the acceptable range: the text
    mentions the two bounds of the range. *)
Definition names_range (text : string) (lo hi : Z) : bool :=
  PyStr.contains (PyStr.str_of_int lo) text && PyStr.contains (PyStr.str_of_int hi) text.

(** ** The chat transport: [send_long_message] of [utils/discord_utils.py]

    Lengths and indices count the characters of the [string], one for
    each byte: they are the ones of Python for an ASCII text. *)
Module DiscordUtils.

Definition MAX_LENGTH : Z := 2000.

(** [len(s)] *)
Definition len (s : string) : Z := Z.of_nat (String.length s).

(** A slice index as Python adjusts it: a negative index counts from the
    end, and the result is clamped to [0, n]. *)
Definition adjust (n i : Z) : Z :=
  if i <? 0 then Z.max (i + n) 0 else Z.min i n.

(** [text[a:b]] *)
Definition slice (text : string) (a b : Z) : string :=
  let a' := adjust (len text) a in
  let b' := adjust (len text) b in
  string_of_list_ascii
    (take (Z.to_nat (b' - a')) (drop (Z.to_nat a') (list_ascii_of_string text))).

(** The scan of [rfind]: [i] is the index of the head of [s], [found] the
    last index seen so far in [lo, hi) that holds [c]. *)
Fixpoint rfind_scan (c : ascii) (s : string) (i lo hi found : Z) : Z :=
  match s with
  | EmptyString => found
  | String x r =>
      rfind_scan c r (i + 1) lo hi
        (if (lo <=? i) && (i <? hi) && Ascii.eqb x c then i else found)
  end.

(** [text.rfind(c, start, end)] for a one-character [c]: the highest index
    in the slice that holds [c], or -1. *)
Definition rfind (text : string) (c : ascii) (start end_ : Z) : Z :=
  rfind_scan c text 0 (adjust (len text) start) (adjust (len text) end_) (-1).

(** The body of the [while] loop: the message it sends, if any, and the
    next value of [current_pos]. *)
Definition send_step (text message_prefix : string) (current_pos : Z)
    : option string * Z :=
  let remaining_space := MAX_LENGTH - len message_prefix in
  let end_pos := current_pos + remaining_space in
  let end_pos := Z.min end_pos (len text) in
  let split_pos := rfind text "010" current_pos end_pos in
  let split_pos :=
    if (split_pos =? -1) || (split_pos <=? current_pos) then
      let split_pos := rfind text " " current_pos end_pos in
      if (split_pos =? -1) || (split_pos <=? current_pos) then end_pos else split_pos
    else split_pos in
  let stripped := PyStr.strip (slice text current_pos split_pos) in
  let chunk :=
    match stripped with
    | EmptyString => slice text current_pos end_pos
    | _ => stripped
    end in
  (match chunk with
   | EmptyString => None
   | _ => Some (message_prefix ++ chunk)
   end,
   if String.eqb chunk stripped then split_pos else end_pos).

(** The [while current_pos < len(text)] loop, run for at most [fuel]
    rounds: the messages sent, in order, and the last [current_pos]. *)
Fixpoint send_loop (fuel : nat) (text prefix : string) (current_pos : Z)
    (first_message : bool) : list string * Z :=
  match fuel with
  | O => ([], current_pos)
  | S k =>
      if current_pos <? len text then
        let message_prefix := if first_message then prefix else "" in
        let '(sent, next) := send_step text message_prefix current_pos in
        let '(rest, last) := send_loop k text prefix next false in
        (match sent with Some m => m :: rest | None => rest end, last)
      else ([], current_pos)
  end.

(** [send_long_message(ctx, text, prefix)]: the messages that [ctx.send]
    receives. The loop needs no more rounds than given here. *)
Definition send_long_message (text prefix : string) : list string :=
  fst (send_loop (S (String.length text + String.length prefix)) text prefix 0 true).

(** A text without its white space. *)
Fixpoint without_space (s : string) : string :=
  match s with
  | EmptyString => EmptyString
  | String c r => if PyStr.is_space c then without_space r else String c (without_space r)
  end.

(** Messages put end to end. *)
Fixpoint put_together (messages : list string) : string :=
  match messages with
  | [] => EmptyString
  | m :: rest => m ++ put_together rest
  end.

(** A text without any white space character. *)
Fixpoint no_space (s : string) : bool :=
  match s with
  | EmptyString => true
  | String c r => negb (PyStr.is_space c) && no_space r
  end.

End DiscordUtils.

(** ** The daily summary: [daily_schedule_summary] of the cog *)

(** [s.replace(old, new)]: every occurrence of [old], from the left and
    without overlap, becomes [new]. [skip] counts the characters of an
    occurrence still to pass over. *)
Fixpoint replace_scan (old new s : string) (skip : nat) : string :=
  match s with
  | EmptyString => EmptyString
  | String c r =>
      match skip with
      | S k => replace_scan old new r k
      | O =>
          if String.prefix old s
          then new ++ replace_scan old new r (String.length old - 1)
          else String c (replace_scan old new r 0)
      end
  end.

(** With an empty [old], [new] goes before every character and at the end. *)
Fixpoint replace_empty (new s : string) : string :=
  match s with
  | EmptyString => new
  | String c r => new ++ String c (replace_empty new r)
  end.

Definition replace (s old new : string) : string :=
  match old with
  | EmptyString => replace_empty new s
  | _ => replace_scan old new s 0
  end.

Section DailySummary.

Context `{C : Collaborators}.

Definition today_header (today : date) : string :=
  "🗓️ **Schedule for Today (" ++ strftime_A_B_d today ++ "):**".

(** The message of the day, from the summary of the fetch. *)
Definition daily_message (today : date) (summary_text : string) : string :=
  if PyStr.startswith summary_text "Error:"
     || PyStr.startswith summary_text "An unexpected error"
  then "⚠️ Could not fetch daily schedule summary. Error: " ++ summary_text
  else if PyStr.startswith summary_text "No events found"
  then "☀️ Good morning! No events scheduled for today (" ++ strftime_A_B_d today ++ ")."
  else replace summary_text (schedule_header today) (today_header today).

(** One run of the task. [notify_channel] tells whether
    [get_notify_channel] found the channel, [today] is the reading of
    [datetime.date.today()]. The result is what the channel receives. *)
Definition daily_schedule_summary (self : ScheduleCog) (notify_channel : bool)
    (today : date) (e : env) : list string * env :=
  match calendar_service self with
  | None => ([], e)
  | Some _ =>
      if notify_channel then
        let '((summary_text, _), e1) :=
          get_events_for_day (calendar_service self) today e in
        (send_long_message (daily_message today summary_text), e1)
      else ([], e)
  end.

End DailySummary.

(** ** What a command may ask of the provider *)
Section Requests.

Context `{C : Collaborators}.

(** The request that belongs to a command: the list of the window of the
    resolved date for a view, the insert of the title over the given
    minutes for an add, the delete of the record under the index for a
    remove. *)
Definition request_of (c : command) (self : ScheduleCog) (k : call) : Prop :=
  match c, k with
  | view_command today author day_str, events_list_call timeMin timeMax =>
      exists d, parse_relative_date parser_parse today day_str = Return (Some d)
                /\ timeMin = d * US_PER_DAY /\ timeMax = d * US_PER_DAY + (US_PER_DAY - 1)
  | add_command now summary_ time_str duration_minutes, events_insert_call body =>
      body_summary body = summary_
      /\ body_end body = body_start body + duration_minutes * 60000000
      /\ in_range (body_start body) = true /\ in_range (body_end body) = true
  | remove_command author event_index, events_delete_call eventId =>
      exists records label title,
        last_viewed_events self !! author = Some records
        /\ 1 <= event_index
        /\ records !! Z.to_nat (event_index - 1) = Some (eventId, label, title)
  | _, _ => False
  end.

End Requests.

(** ** Commands in a row *)
Section Sessions.

Context `{C : Collaborators}.

(** The commands of [cs] handled one after the other. *)
Fixpoint run_all (cs : list command) (self : ScheduleCog) (e : env) : ScheduleCog * env :=
  match cs with
  | [] => (self, e)
  | c :: rest => let '(self', e') := run c self e in run_all rest self' e'
  end.

End Sessions.

(** * Properties *)

(** ** Dates *)

Example ord2ymd_example : ord2ymd (ymd2ord 2025 4 21) = (2025, 4, 21).
Proof. reflexivity. Qed.

Example strftime_year_999 :
  strftime_A_B_d_Y (ymd2ord 999 1 1) = "Tuesday, January 01, 999".
Proof. reflexivity. Qed.

Example strftime_example :
  strftime_A_B_d_Y (ymd2ord 2025 4 20) = "Sunday, April 20, 2025".
Proof. reflexivity. Qed.

Example maxordinal_example : ord2ymd MAXORDINAL = (9999, 12, 31).
Proof. reflexivity. Qed.

Lemma all_from_spec P fuel n :
  all_from fuel n P = true -> forall m, n <= m < n + Z.of_nat fuel -> P m = true.
Proof.
  revert n. induction fuel as [| k IH]; intros n H m Hm; [lia |].
  simpl in H. destruct (P n) eqn:Hn; [| discriminate].
  destruct (Z.eq_dec m n) as [-> | Hne]; [assumption |].
  apply (IH (n + 1)); [assumption | lia].
Qed.

Lemma days_before_year_period y q :
  days_before_year (y + 400 * q) = days_before_year y + DI400Y * q.
Proof.
  unfold days_before_year, DI400Y. cbv zeta.
  replace (y + 400 * q - 1) with (y - 1 + q * 400) by lia.
  rewrite (Z_div_plus (y - 1) q 400) by lia.
  replace (y - 1 + q * 400) with (y - 1 + (100 * q) * 4) at 2 by lia.
  rewrite (Z_div_plus (y - 1) (100 * q) 4) by lia.
  replace (y - 1 + q * 400) with (y - 1 + (4 * q) * 100) at 2 by lia.
  rewrite (Z_div_plus (y - 1) (4 * q) 100) by lia.
  lia.
Qed.

Lemma is_leap_period y q : is_leap (y + 400 * q) = is_leap y.
Proof.
  unfold is_leap.
  replace (y + 400 * q) with (y + (100 * q) * 4) at 1 by lia. rewrite Z_mod_plus_full.
  replace (y + 400 * q) with (y + (4 * q) * 100) at 1 by lia. rewrite Z_mod_plus_full.
  replace (y + 400 * q) with (y + q * 400) by lia. rewrite Z_mod_plus_full.
  reflexivity.
Qed.

Lemma ymd2ord_period y m d q :
  ymd2ord (y + 400 * q) m d = ymd2ord y m d + DI400Y * q.
Proof.
  unfold ymd2ord, days_before_month.
  rewrite days_before_year_period, is_leap_period. lia.
Qed.

Lemma ord2ymd_period r q :
  0 <= r < DI400Y ->
  ord2ymd (r + 1 + DI400Y * q)
  = let '(y, m, d) := ord2ymd (r + 1) in (y + 400 * q, m, d).
Proof.
  intros Hr. unfold ord2ymd. cbv zeta.
  replace (r + 1 + DI400Y * q - 1) with (r + q * DI400Y) by lia.
  replace (r + 1 - 1) with r by lia.
  rewrite Z_div_plus, Z_mod_plus_full by (unfold DI400Y; lia).
  rewrite (Z.div_small r DI400Y), (Z.mod_small r DI400Y) by assumption.
  repeat match goal with
         | |- context [if ?b then _ else _] => destruct b
         end; f_equal; f_equal; lia.
Qed.

Lemma cycle_checked : all_from (Z.to_nat DI400Y) 1 (well_formed_ymd 400) = true.
Proof. vm_compute. reflexivity. Qed.

Lemma well_formed_ymd_fields max_year n y m d :
  ord2ymd n = (y, m, d) ->
  well_formed_ymd max_year n = true <->
  (1 <= y <= max_year /\ 1 <= m <= 12 /\ 1 <= d <= 31 /\ ymd2ord y m d = n).
Proof.
  intros H. unfold well_formed_ymd. rewrite H.
  rewrite !andb_true_iff, !Z.leb_le, Z.eqb_eq. tauto.
Qed.

(** Every date has a year, a month and a day in range, and [ymd2ord]
    leads back to its ordinal. *)
Lemma ord2ymd_well_formed n : valid_date n -> well_formed_ymd 9999 n = true.
Proof.
  unfold valid_date, MAXORDINAL. intros Hn.
  pose proof (Z.div_mod (n - 1) DI400Y ltac:(unfold DI400Y; lia)) as Hdm.
  pose proof (Z.mod_pos_bound (n - 1) DI400Y ltac:(unfold DI400Y; lia)) as Hr.
  set (q := (n - 1) / DI400Y) in *. set (r := (n - 1) mod DI400Y) in *.
  assert (Hq : 0 <= q <= 24).
  { unfold DI400Y in *. split.
    - apply Z.div_pos; lia.
    - assert (q < 25); [| lia]. apply Z.div_lt_upper_bound; lia. }
  pose proof (all_from_spec _ _ _ cycle_checked (r + 1)
                ltac:(rewrite Z2Nat.id; unfold DI400Y in *; lia)) as Hc.
  pose proof (ord2ymd_period r q Hr) as Hp.
  destruct (ord2ymd (r + 1)) as [[y m] d] eqn:Hy.
  apply (well_formed_ymd_fields 400 (r + 1) y m d Hy) in Hc.
  destruct Hc as (Hy1 & Hm & Hd & Ho).
  replace (r + 1 + DI400Y * q) with n in Hp by lia.
  apply (well_formed_ymd_fields 9999 n _ _ _ Hp).
  rewrite ymd2ord_period. repeat split; try lia.
  destruct (Z_le_gt_dec (y + 400 * q) 9999) as [Hle | Hgt]; [assumption |].
  assert (y = 400 /\ q = 24) as [-> ->] by lia.
  exfalso. unfold ymd2ord, days_before_month in Ho.
  assert (0 <= table DAYS_BEFORE_MONTH m).
  { assert (m = 1 \/ m = 2 \/ m = 3 \/ m = 4 \/ m = 5 \/ m = 6 \/ m = 7 \/ m = 8
            \/ m = 9 \/ m = 10 \/ m = 11 \/ m = 12) as Hcases by lia.
    repeat (destruct Hcases as [-> | Hcases]; [vm_compute; discriminate |]).
    subst m. vm_compute. discriminate. }
  change (days_before_year 400) with 145731 in Ho. unfold DI400Y in *.
  destruct ((2 <? m) && is_leap 400); lia.
Qed.

Lemma weekday_name_is_a_day d : In (name_at DAY_NAMES (weekday d)) DAY_NAMES.
Proof.
  unfold weekday. pose proof (Z.mod_pos_bound (d + 6) 7 ltac:(lia)) as H.
  assert ((d + 6) mod 7 = 0 \/ (d + 6) mod 7 = 1 \/ (d + 6) mod 7 = 2
          \/ (d + 6) mod 7 = 3 \/ (d + 6) mod 7 = 4 \/ (d + 6) mod 7 = 5
          \/ (d + 6) mod 7 = 6) as Hc by lia.
  repeat (destruct Hc as [-> | Hc]; [simpl; tauto |]). rewrite Hc. simpl. tauto.
Qed.

Lemma month_name_is_a_month m :
  1 <= m <= 12 -> In (name_at MONTH_NAMES m) (tl MONTH_NAMES).
Proof.
  intros H.
  assert (m = 1 \/ m = 2 \/ m = 3 \/ m = 4 \/ m = 5 \/ m = 6 \/ m = 7 \/ m = 8
          \/ m = 9 \/ m = 10 \/ m = 11 \/ m = 12) as Hc by lia.
  repeat (destruct Hc as [-> | Hc]; [simpl; tauto |]). rewrite Hc. simpl. tauto.
Qed.

Lemma day_printed_on_two_digits dd : 1 <= dd <= 31 -> printed_on 2 dd = true.
Proof.
  intros H. apply (all_from_spec (printed_on 2) 31 1); [reflexivity | lia].
Qed.

Lemma year_printed_on_four_digits y : 1 <= y <= 9999 -> printed_on 4 y = true.
Proof.
  intros H. apply (all_from_spec (printed_on 4) (Z.to_nat 9999) 1).
  - vm_compute. reflexivity.
  - rewrite Z2Nat.id; lia.
Qed.

Lemma year_printed_in_digits y : 1 <= y <= 9999 -> digits (PyStr.str_of_int y) = true.
Proof.
  intros H.
  apply (all_from_spec (fun y => digits (PyStr.str_of_int y)) (Z.to_nat 9999) 1).
  - vm_compute. reflexivity.
  - rewrite Z2Nat.id; lia.
Qed.

Lemma year_from_1000_unpadded y :
  1000 <= y <= 9999 -> PyStr.str_of_int y = PyStr.zero_pad 4 y.
Proof.
  intros H. apply String.eqb_eq.
  apply (all_from_spec (fun y => String.eqb (PyStr.str_of_int y) (PyStr.zero_pad 4 y))
           (Z.to_nat 9000) 1000).
  - vm_compute. reflexivity.
  - rewrite Z2Nat.id; lia.
Qed.

(** The text of a date reads "<Weekday>, <Month> DD, <year>": the name of
    its weekday, the name of its month, the day on two digits and the
    year in digits, four of them from the year 1000 on. *)
Lemma strftime_A_B_d_Y_well_formed d :
  valid_date d ->
  exists y m dd,
    ymd2ord y m dd = d
    /\ strftime_A_B_d_Y d
       = name_at DAY_NAMES (weekday d) ++ ", " ++ name_at MONTH_NAMES m ++ " "
           ++ PyStr.zero_pad 2 dd ++ ", " ++ PyStr.str_of_int y
    /\ In (name_at DAY_NAMES (weekday d)) DAY_NAMES
    /\ In (name_at MONTH_NAMES m) (tl MONTH_NAMES)
    /\ printed_on 2 dd = true
    /\ 1 <= y <= 9999 /\ digits (PyStr.str_of_int y) = true
    /\ (1000 <= y -> PyStr.str_of_int y = PyStr.zero_pad 4 y /\ printed_on 4 y = true).
Proof.
  intros Hd. pose proof (ord2ymd_well_formed d Hd) as H.
  destruct (ord2ymd d) as [[y m] dd] eqn:Hy.
  apply (well_formed_ymd_fields 9999 d y m dd Hy) in H.
  destruct H as (Hy1 & Hm & Hdd & Ho).
  exists y, m, dd. split; [assumption |]. split.
  - unfold strftime_A_B_d_Y. now rewrite Hy.
  - split; [apply weekday_name_is_a_day |].
    split; [now apply month_name_is_a_month |].
    split; [now apply day_printed_on_two_digits |].
    split; [assumption |].
    split; [now apply year_printed_in_digits |].
    intros H1000. split;
      [apply year_from_1000_unpadded; lia | now apply year_printed_on_four_digits].
Qed.

(** ** Python strings *)

Lemma lower_ascii_capital c c' :
  97 <= PyStr.code c' <= 122 -> PyStr.code c = PyStr.code c' - 32 ->
  PyStr.lower_ascii c = c'.
Proof.
  unfold PyStr.lower_ascii, PyStr.is_upper, PyStr.code. intros Hc' Hc.
  replace ((65 <=? Z.of_N (N_of_ascii c)) && (Z.of_N (N_of_ascii c) <=? 90)) with true
    by (symmetry; apply andb_true_iff; split; apply Z.leb_le; lia).
  replace (N_of_ascii c + 32)%N with (N_of_ascii c') by lia.
  apply ascii_N_embedding.
Qed.

Lemma lower_any_case s w :
  any_case s w -> no_capital w = true -> PyStr.lower s = w.
Proof.
  induction 1 as [| c s w _ IH | c c' s w Hc' Hc _ IH]; simpl; intros Hw.
  - reflexivity.
  - apply andb_true_iff in Hw as [Hc Hw]. unfold PyStr.lower_ascii.
    apply negb_true_iff in Hc. rewrite Hc. f_equal. auto.
  - apply andb_true_iff in Hw as [_ Hw].
    rewrite (lower_ascii_capital c c') by assumption. f_equal. auto.
Qed.

Lemma any_case_refl w : any_case w w.
Proof. induction w; constructor; assumption. Qed.

Lemma all_alpha_any_case s w :
  any_case s w -> Dateutil.all_alpha w = true -> Dateutil.all_alpha s = true.
Proof.
  induction 1 as [| c s w _ IH | c c' s w Hc' Hc _ IH]; simpl; intros Hw.
  - reflexivity.
  - apply andb_true_iff in Hw as [Hc Hw]. rewrite Hc. simpl. auto.
  - apply andb_true_iff in Hw as [_ Hw]. rewrite IH by assumption.
    rewrite andb_true_r. unfold Dateutil.is_alpha. apply orb_true_iff. left.
    apply andb_true_iff. split; apply Z.leb_le; lia.
Qed.

Lemma is_word_any_case s w :
  any_case s w -> Dateutil.is_word w = true -> Dateutil.is_word s = true.
Proof.
  intros H Hw. destruct H; simpl in *; try discriminate.
  - apply (all_alpha_any_case (String c s) (String c w)); [now constructor | assumption].
  - apply (all_alpha_any_case (String c s) (String c' w)); [now constructor | assumption].
Qed.

(** ** Relative Date Resolver *)

Example resolve_monday_on_a_monday rest :
  parse_relative_date (Dateutil.parse rest) (ymd2ord 2025 4 21) "monday"
  = Return (Some (ymd2ord 2025 4 21)).
Proof. reflexivity. Qed.

Example resolve_friday_on_monday rest :
  parse_relative_date (Dateutil.parse rest) (ymd2ord 2025 4 21) "Friday"
  = Return (Some (ymd2ord 2025 4 25)).
Proof. reflexivity. Qed.

Lemma date_of_combine D : date_of (combine D 0) = D.
Proof.
  unfold date_of, combine; simpl. rewrite Z.add_0_r.
  apply Z.div_mul. unfold US_PER_DAY. lia.
Qed.

Lemma add_days_valid D n : valid_date (D + n) -> add_days D n = Return (D + n).
Proof.
  unfold valid_date, add_days. intros [H1 H2].
  replace (0 <? D + n) with true by (symmetry; apply Z.ltb_lt; lia).
  replace (D + n <=? MAXORDINAL) with true by (symmetry; apply Z.leb_le; lia).
  reflexivity.
Qed.

Lemma add_days_overflow D n :
  ~ valid_date (D + n) -> add_days D n = Raise (OverflowError "date value out of range").
Proof.
  unfold valid_date, add_days. intros H.
  destruct (0 <? D + n) eqn:H1; [| reflexivity].
  destruct (D + n <=? MAXORDINAL) eqn:H2; [| reflexivity].
  apply Z.ltb_lt in H1. apply Z.leb_le in H2. exfalso. apply H. lia.
Qed.

Lemma weekdays_index W k :
  PyStr.index W weekdays = Some k ->
  (W, k) ∈ [("monday", 0); ("tuesday", 1); ("wednesday", 2); ("thursday", 3);
            ("friday", 4); ("saturday", 5); ("sunday", 6)].
Proof.
  unfold weekdays. cbn [PyStr.index].
  repeat match goal with
         | |- context [String.eqb ?a W] =>
             destruct (String.eqb_spec a W) as [<- | _];
             [cbn; intros [= <-]; repeat constructor |]
         end.
  cbn. discriminate.
Qed.

(** What the code computes for a weekday name: [parser.parse] accepts the
    name and moves the default forward to that weekday, by zero days when
    the default already falls on it. The branch of [parse_relative_date]
    written for weekday names is not reached. *)
Lemma dateutil_weekday_resolution rest D k W s :
  PyStr.index W weekdays = Some k -> any_case s W ->
  valid_date (D + (7 - weekday D + k) mod 7) ->
  parse_relative_date (Dateutil.parse rest) D s
  = Return (Some (D + (7 - weekday D + k) mod 7)).
Proof.
  intros HW Hs Hv. apply weekdays_index in HW.
  assert (HW' : no_capital W = true /\ Dateutil.is_word W = true
               /\ Dateutil.convert Dateutil.WEEKDAYS 0 W = Some k
               /\ PyStr.strip W = W
               /\ (W =? "today")%string = false /\ (W =? "tomorrow")%string = false
               /\ (W =? "yesterday")%string = false).
  { repeat (apply elem_of_cons in HW as [[= -> ->] | HW];
            [repeat split; reflexivity |]).
    inversion HW. }
  destruct HW' as (Hn & Hw & Hi & Hst & H1 & H2 & H3).
  pose proof (lower_any_case s W Hs Hn) as Hl.
  pose proof (is_word_any_case s W Hs Hw) as Hws.
  unfold parse_relative_date. rewrite Hl, Hst, H1, H2, H3.
  unfold Dateutil.parse. rewrite Hws.
  unfold Dateutil.info_weekday. rewrite Hl, Hi.
  unfold Dateutil.add_relativedelta_weekday, datetime_add_days.
  rewrite date_of_combine, add_days_valid by assumption.
  f_equal. f_equal. unfold date_of, combine; simpl wall.
  replace (D * US_PER_DAY + 0 + (7 - weekday D + k) mod 7 * US_PER_DAY)
    with ((D + (7 - weekday D + k) mod 7) * US_PER_DAY) by lia.
  apply Z.div_mul. unfold US_PER_DAY. lia.
Qed.

(** The branch written for weekday names, had the parser rejected the
    name: the next day of that weekday, one to seven days ahead. *)
Lemma weekday_fallback_next_occurrence parse D k W s :
  parse s (combine D 0) = Raise ParserError ->
  PyStr.index W weekdays = Some k -> any_case s W ->
  exists days_ahead,
    1 <= days_ahead <= 7 /\ weekday (D + days_ahead) = k /\
    parse_relative_date parse D s = match add_days D days_ahead with
                                    | Return d => Return (Some d)
                                    | Raise e => Raise e
                                    end.
Proof.
  intros Hp HW Hs. pose proof (weekdays_index W k HW) as HW'.
  assert (Hk : no_capital W = true /\ PyStr.strip W = W /\ 0 <= k <= 6
               /\ (W =? "today")%string = false /\ (W =? "tomorrow")%string = false
               /\ (W =? "yesterday")%string = false).
  { repeat (apply elem_of_cons in HW' as [[= -> ->] | HW'];
            [repeat split; (reflexivity || lia) |]).
    inversion HW'. }
  destruct Hk as (Hn & Hst & Hk & H1 & H2 & H3).
  pose proof (lower_any_case s W Hs Hn) as Hl.
  pose proof (Z.mod_pos_bound (k - weekday D + 7) 7 ltac:(lia)) as Hm.
  exists (if (k - weekday D + 7) mod 7 =? 0 then 7 else (k - weekday D + 7) mod 7).
  split; [| split].
  - destruct (Z.eqb_spec ((k - weekday D + 7) mod 7) 0); lia.
  - unfold weekday in *.
    pose proof (Z.mod_pos_bound (D + 6) 7 ltac:(lia)).
    destruct (Z.eqb_spec ((k - (D + 6) mod 7 + 7) mod 7) 0) as [E | E].
    + replace (D + 7 + 6) with (D + 6 + 1 * 7) by lia. rewrite Z.mod_add by lia.
      rewrite Z.mod_divide in E by lia. destruct E as [q E]. lia.
    + rewrite (Z.mod_eq (k - (D + 6) mod 7 + 7) 7) by lia.
      replace (D + (k - (D + 6) mod 7 + 7 - 7 * ((k - (D + 6) mod 7 + 7) / 7)) + 6)
        with (k + (1 - (k - (D + 6) mod 7 + 7) / 7 + (D + 6) / 7) * 7).
      * rewrite Z.mod_add by lia. apply Z.mod_small. lia.
      * rewrite (Z.mod_eq (D + 6) 7) by lia. lia.
  - unfold parse_relative_date. rewrite Hl, Hst, H1, H2, H3, Hp, HW. reflexivity.
Qed.

(** C1 (the code departs from the claim). A weekday name, in any letter
    case, resolved against a date that falls on that weekday returns the
    date itself: the distance is 0 days, where the claim and the comment
    in the code ask for the date seven days later. *)
Theorem C1_weekday_name_on_its_own_day_resolves_to_today rest D k W s :
  PyStr.index W weekdays = Some k -> any_case s W ->
  valid_date D -> weekday D = k ->
  parse_relative_date (Dateutil.parse rest) D s = Return (Some D).
Proof.
  intros HW Hs Hv Hk.
  pose proof (dateutil_weekday_resolution rest D k W s HW Hs) as H.
  replace (7 - weekday D + k) with (1 * 7) in H by lia.
  rewrite Z.mod_mul, Z.add_0_r in H by lia. auto.
Qed.

Lemma C1_monday_21_april_2025 :
  parse_relative_date (Dateutil.parse TestDouble.rejecting) (ymd2ord 2025 4 21) "monday"
  = Return (Some (ymd2ord 2025 4 21)).
Proof.
  apply (C1_weekday_name_on_its_own_day_resolves_to_today
           TestDouble.rejecting (ymd2ord 2025 4 21) 0 "monday" "monday").
  - reflexivity.
  - apply any_case_refl.
  - unfold valid_date. vm_compute. split; discriminate.
  - reflexivity.
Defined.

(** C10. In any letter case, "today" resolves to the reference date D,
    "tomorrow" to D + 1 day and "yesterday" to D - 1 day, for every D
    whose neighbour is a date. *)
Theorem C10_today_tomorrow_yesterday parse D s :
  (any_case s "today" -> parse_relative_date parse D s = Return (Some D)) /\
  (any_case s "tomorrow" -> valid_date (D + 1) ->
   parse_relative_date parse D s = Return (Some (D + 1))) /\
  (any_case s "yesterday" -> valid_date (D - 1) ->
   parse_relative_date parse D s = Return (Some (D - 1))).
Proof.
  unfold parse_relative_date. repeat split.
  - intros Hs. rewrite (lower_any_case s "today" Hs eq_refl). reflexivity.
  - intros Hs Hv. rewrite (lower_any_case s "tomorrow" Hs eq_refl).
    change (PyStr.strip "tomorrow") with "tomorrow".
    change ("tomorrow" =? "today")%string with false.
    change ("tomorrow" =? "tomorrow")%string with true.
    cbv iota. now rewrite add_days_valid.
  - intros Hs Hv. rewrite (lower_any_case s "yesterday" Hs eq_refl).
    change (PyStr.strip "yesterday") with "yesterday".
    change ("yesterday" =? "today")%string with false.
    change ("yesterday" =? "tomorrow")%string with false.
    change ("yesterday" =? "yesterday")%string with true.
    cbv iota. change (D - 1) with (D + -1) in *. now rewrite add_days_valid.
Qed.

Lemma any_case_ToMoRRoW : any_case "ToMoRRoW" "tomorrow".
Proof.
  apply (any_case_capital "T" "t"); [vm_compute; split; discriminate | reflexivity |].
  apply any_case_small.
  apply (any_case_capital "M" "m"); [vm_compute; split; discriminate | reflexivity |].
  apply any_case_small.
  apply (any_case_capital "R" "r"); [vm_compute; split; discriminate | reflexivity |].
  apply (any_case_capital "R" "r"); [vm_compute; split; discriminate | reflexivity |].
  apply any_case_small.
  apply (any_case_capital "W" "w"); [vm_compute; split; discriminate | reflexivity |].
  constructor.
Defined.

Lemma C10_witness :
  parse_relative_date (Dateutil.parse TestDouble.rejecting) (ymd2ord 2025 4 21) "ToMoRRoW"
  = Return (Some (ymd2ord 2025 4 21 + 1)).
Proof.
  apply (C10_today_tomorrow_yesterday
           (Dateutil.parse TestDouble.rejecting) (ymd2ord 2025 4 21) "ToMoRRoW").
  - exact any_case_ToMoRRoW.
  - unfold valid_date. vm_compute. split; discriminate.
Defined.

(** ** Event Window Fetcher *)
Section FetcherProperties.

Context `{C : Collaborators}.

Lemma render_events_spec events n summary_lines event_details_list :
  render_events events n summary_lines event_details_list
  = ((summary_lines ++ imap (line_of n) events)%list,
     (event_details_list ++ map details_of events)%list).
Proof.
  revert n summary_lines event_details_list.
  induction events as [| ev rest IH]; intros n ls ds; simpl.
  - now rewrite !app_nil_r.
  - rewrite IH, <- !app_assoc. simpl. f_equal.
    f_equal. unfold line_of at 2. rewrite Z.add_0_r. f_equal.
    apply imap_ext. intros i x _. unfold line_of. simpl. f_equal. lia.
Qed.

Lemma get_events_for_day_listed svc d e p ev rest :
  events_list (remote e) (d * US_PER_DAY) (d * US_PER_DAY + (US_PER_DAY - 1))
  = (p, Return (ev :: rest)) ->
  fst (get_events_for_day (Some svc) d e)
  = (PyStr.join newline (schedule_header d :: imap (line_of 1) (ev :: rest)),
     map details_of (ev :: rest)).
Proof.
  intros H. unfold get_events_for_day, execute_list. rewrite H.
  rewrite render_events_spec. reflexivity.
Qed.

(** C3 (amended). For a day whose query yields N >= 1 events the summary
    is the header line followed by one line per event, in the order of
    the provider; line i reads [`[i]` <time-label>: <title>], the index
    in square brackets wrapped in backquotes, for i = 1..N in ascending
    order; and record i is the (id, time-label, title) of that event. *)
Theorem C3_rendered_lines_and_records svc d e p events :
  events_list (remote e) (d * US_PER_DAY) (d * US_PER_DAY + (US_PER_DAY - 1))
  = (p, Return events) ->
  (1 <= length events)%nat ->
  exists lines records,
    fst (get_events_for_day (Some svc) d e)
    = (PyStr.join newline (schedule_header d :: lines), records)
    /\ length lines = length events
    /\ length records = length events
    /\ forall (i : nat) ev, events !! i = Some ev ->
         lines !! i = Some ("`[" ++ PyStr.str_of_int (Z.of_nat i + 1) ++ "]` "
                              ++ time_label ev ++ ": " ++ event_summary_of ev)
         /\ records !! i = Some (id ev, time_label ev, event_summary_of ev).
Proof.
  intros H HN. destruct events as [| ev rest]; [simpl in HN; lia |].
  exists (imap (line_of 1) (ev :: rest)), (map details_of (ev :: rest)).
  split; [now apply get_events_for_day_listed with (p := p) |].
  split; [apply length_imap |]. split; [apply length_map |].
  intros i x Hi. split.
  - rewrite list_lookup_imap, Hi. simpl. unfold line_of, rendered_line.
    do 2 f_equal. f_equal. f_equal. lia.
  - rewrite list_lookup_fmap, Hi. reflexivity.
Qed.

Lemma get_events_for_day_records svc d e p events :
  events_list (remote e) (d * US_PER_DAY) (d * US_PER_DAY + (US_PER_DAY - 1))
  = (p, Return events) ->
  exists text e',
    get_events_for_day (Some svc) d e = ((text, map details_of events), e').
Proof.
  intros H. unfold get_events_for_day, execute_list. rewrite H.
  destruct events as [| ev rest]; [now eexists; eexists |].
  rewrite render_events_spec. now eexists; eexists.
Qed.

Lemma get_events_for_day_without_service d e :
  get_events_for_day None d e = (("Error: Calendar service not available.", []), e)
  /\ signals_error "Error: Calendar service not available." = true.
Proof. split; reflexivity. Qed.

Lemma get_events_for_day_raised svc d e p ex :
  events_list (remote e) (d * US_PER_DAY) (d * US_PER_DAY + (US_PER_DAY - 1))
  = (p, Raise ex) ->
  exists text e',
    get_events_for_day (Some svc) d e = ((text, []), e')
    /\ signals_error text = true.
Proof.
  intros H. unfold get_events_for_day, execute_list. rewrite H.
  destruct ex; simpl; eexists; eexists; split; reflexivity.
Qed.

(** C4. When the request to the provider raises, whatever the exception,
    [get_events_for_day] returns: the summary carries one of the two
    error prefixes and the record sequence is empty. *)
Theorem C4_fetch_fails_softly svc d e p ex :
  events_list (remote e) (d * US_PER_DAY) (d * US_PER_DAY + (US_PER_DAY - 1))
  = (p, Raise ex) ->
  exists text,
    fst (get_events_for_day (Some svc) d e) = (text, [])
    /\ signals_error text = true.
Proof.
  intros H. destruct (get_events_for_day_raised svc d e p ex H) as (text & e' & Hg & Ht).
  exists text. now rewrite Hg.
Qed.

(** C9. For a date whose query yields no event the summary is exactly the
    sentence "No events found for <Weekday, Month DD, YYYY>." and the
    record sequence is empty; the date reads the name of its weekday, the
    name of its month, the day on two digits and the year of the date in
    digits, as [%Y] prints it: on four digits from the year 1000 on,
    without padding before. *)
Theorem C9_no_events_sentence svc d e p :
  valid_date d ->
  events_list (remote e) (d * US_PER_DAY) (d * US_PER_DAY + (US_PER_DAY - 1))
  = (p, Return []) ->
  fst (get_events_for_day (Some svc) d e)
  = ("No events found for " ++ strftime_A_B_d_Y d ++ ".", [])
  /\ exists y m dd,
       ymd2ord y m dd = d
       /\ strftime_A_B_d_Y d
          = name_at DAY_NAMES (weekday d) ++ ", " ++ name_at MONTH_NAMES m ++ " "
              ++ PyStr.zero_pad 2 dd ++ ", " ++ PyStr.str_of_int y
       /\ In (name_at DAY_NAMES (weekday d)) DAY_NAMES
       /\ In (name_at MONTH_NAMES m) (tl MONTH_NAMES)
       /\ printed_on 2 dd = true
       /\ 1 <= y <= 9999 /\ digits (PyStr.str_of_int y) = true
       /\ (1000 <= y -> PyStr.str_of_int y = PyStr.zero_pad 4 y /\ printed_on 4 y = true).
Proof.
  intros Hd H. split.
  - unfold get_events_for_day, execute_list. now rewrite H.
  - now apply strftime_A_B_d_Y_well_formed.
Qed.

End FetcherProperties.

(** ** The cog and its commands *)
Section CogProperties.

Context `{C : Collaborators}.

Lemma schedule_view_keeps_service self today author day_str e :
  calendar_service (fst (schedule_view self today author day_str e))
  = calendar_service self.
Proof.
  unfold schedule_view. destruct (calendar_service self) eqn:Hs; [| now rewrite <- Hs].
  destruct (parse_relative_date _ _ _) as [[d |] | ex]; try (now rewrite <- Hs).
  destruct (get_events_for_day _ _ _) as [[text records] e2]. reflexivity.
Qed.

Lemma schedule_add_keeps_cog self now summary_ time_str duration_minutes e :
  fst (schedule_add self now summary_ time_str duration_minutes e) = self.
Proof.
  unfold schedule_add. destruct (calendar_service self); [| reflexivity].
  destruct (parser_parse _ _) as [parsed | []]; try reflexivity.
  destruct (in_range _ && in_range _); [| reflexivity].
  destruct (add_calendar_event _ _ _ _ _ _). reflexivity.
Qed.

Lemma schedule_remove_keeps_cog self author event_index e :
  fst (schedule_remove self author event_index e) = self.
Proof.
  unfold schedule_remove. destruct (calendar_service self); [| reflexivity].
  destruct (last_viewed_events self !! author) as [[| r records] |]; try reflexivity.
  destruct (_ && _); [| reflexivity].
  destruct (_ !! _) as [[[eid label] title] |]; [| reflexivity].
  destruct (remove_calendar_event _ _ _). reflexivity.
Qed.

Lemma run_keeps_service c self e :
  calendar_service (fst (run c self e)) = calendar_service self.
Proof.
  destruct c; simpl.
  - apply schedule_view_keeps_service.
  - now rewrite schedule_add_keeps_cog.
  - now rewrite schedule_remove_keeps_cog.
Qed.

(** The cog of the running bot holds a service: [setup] adds no cog
    without one and no command replaces it. *)
Lemma reachable_has_service self e :
  reachable self e -> exists svc, calendar_service self = Some svc.
Proof.
  induction 1 as [service self e Hsetup | c self e self' e' _ IH Hrun | self e p _ IH].
  - destruct service as [svc |]; [| discriminate].
    injection Hsetup as <-. now exists svc.
  - pose proof (run_keeps_service c self e) as H. rewrite Hrun in H. simpl in H.
    now rewrite H.
  - assumption.
Qed.

(** The three ways [schedule_remove] ends when the cog holds a service. *)
Lemma schedule_remove_view_first self author event_index e svc :
  calendar_service self = Some svc ->
  default [] (last_viewed_events self !! author) = [] ->
  schedule_remove self author event_index e = (self, send MSG_VIEW_FIRST e).
Proof.
  intros Hs Hr. unfold schedule_remove. rewrite Hs.
  destruct (last_viewed_events self !! author) as [[| r records] |];
    simpl in Hr; (reflexivity || discriminate).
Qed.

Lemma schedule_remove_invalid_id self author event_index e svc records :
  calendar_service self = Some svc ->
  last_viewed_events self !! author = Some records -> records <> [] ->
  ~ (1 <= event_index <= Z.of_nat (length records)) ->
  schedule_remove self author event_index e
  = (self, send (MSG_INVALID_ID event_index) e).
Proof.
  intros Hs Hr Hne Hi. unfold schedule_remove. rewrite Hs, Hr.
  destruct records as [| r records]; [congruence |].
  destruct (0 <=? event_index - 1) eqn:H1;
    destruct (event_index - 1 <? Z.of_nat (length (r :: records))) eqn:H2;
    try reflexivity.
  apply Z.leb_le in H1. apply Z.ltb_lt in H2. exfalso. apply Hi. lia.
Qed.

Lemma schedule_remove_deletes self author event_index e svc records eid label title :
  calendar_service self = Some svc ->
  last_viewed_events self !! author = Some records ->
  1 <= event_index ->
  records !! Z.to_nat (event_index - 1) = Some (eid, label, title) ->
  let e1 := send ("Attempting to remove event: [" ++ PyStr.str_of_int event_index
                    ++ "] " ++ label ++ ": " ++ title ++ " (ID: " ++ PyStr.take 6 eid
                    ++ "...)...") e in
  schedule_remove self author event_index e
  = (self, send (fst (remove_calendar_event (Some svc) eid e1))
             (snd (remove_calendar_event (Some svc) eid e1))).
Proof.
  intros Hs Hr H1 Hl e1. unfold schedule_remove. rewrite Hs, Hr.
  pose proof (lookup_lt_Some _ _ _ Hl) as Hlt.
  destruct records as [| r records]; [simpl in Hlt; lia |].
  replace (0 <=? event_index - 1) with true by (symmetry; apply Z.leb_le; lia).
  replace (event_index - 1 <? Z.of_nat (length (r :: records))) with true
    by (symmetry; apply Z.ltb_lt; lia).
  simpl andb. cbv iota. rewrite Hl. fold e1.
  destruct (remove_calendar_event (Some svc) eid e1). reflexivity.
Qed.

Lemma remove_calendar_event_calls svc eid e :
  calls (snd (remove_calendar_event (Some svc) eid e))
  = (calls e ++ [events_delete_call eid])%list
  /\ remote (snd (remove_calendar_event (Some svc) eid e))
     = fst (events_delete (remote e) eid)
  /\ outbox (snd (remove_calendar_event (Some svc) eid e)) = outbox e.
Proof.
  unfold remove_calendar_event, execute_delete.
  destruct (events_delete (remote e) eid) as [p [u | ex]]; simpl.
  - auto.
  - destruct ex; simpl; auto. destruct (_ || _); simpl; auto.
Qed.

(** C2 (amended). [schedule_remove] issues a delete call exactly when
    the requester has a cached snapshot and 1 <= i <= len(snapshot), and
    the call is for the id of records[i-1]; distinct indices delete
    distinct ids when the ids of the snapshot are distinct. Otherwise no
    call is issued and the provider is left as it was: without a
    snapshot, or with an empty one, the reply is the guidance to use
    [!schedule view] first, and for an index out of range it is the
    error [Invalid ID '<i>'], which names the rejected index and points
    to the list of [!schedule view]; neither text states the bounds. *)
Theorem C2_remove_deletes_iff_index_in_snapshot self e author i :
  reachable self e ->
  let records := default [] (last_viewed_events self !! author) in
  let e' := snd (schedule_remove self author i e) in
  ((exists eid, calls e' = (calls e ++ [events_delete_call eid])%list)
     <-> 1 <= i <= Z.of_nat (length records))
  /\ (1 <= i <= Z.of_nat (length records) ->
      exists eid label title,
        records !! Z.to_nat (i - 1) = Some (eid, label, title)
        /\ calls e' = (calls e ++ [events_delete_call eid])%list
        /\ remote e' = fst (events_delete (remote e) eid))
  /\ (~ (1 <= i <= Z.of_nat (length records)) ->
      calls e' = calls e /\ remote e' = remote e
      /\ outbox e' = (outbox e ++ [match records with
                                   | [] => MSG_VIEW_FIRST
                                   | _ => MSG_INVALID_ID i
                                   end])%list)
  /\ (forall j rec_i rec_j,
        NoDup (map (fun r : details => r.1.1) records) -> j <> i -> 1 <= i -> 1 <= j ->
        records !! Z.to_nat (i - 1) = Some rec_i ->
        records !! Z.to_nat (j - 1) = Some rec_j ->
        rec_i.1.1 <> rec_j.1.1).
Proof.
  intros Hreach records e'. destruct (reachable_has_service _ _ Hreach) as [svc Hs].
  assert (Hin : 1 <= i <= Z.of_nat (length records) ->
                exists eid label title,
                  records !! Z.to_nat (i - 1) = Some (eid, label, title)
                  /\ calls e' = (calls e ++ [events_delete_call eid])%list
                  /\ remote e' = fst (events_delete (remote e) eid)).
  { intros Hi.
    destruct (lookup_lt_is_Some_2 records (Z.to_nat (i - 1)) ltac:(lia))
      as [[[eid label] title] Hl].
    exists eid, label, title. split; [assumption |].
    assert (Hr : last_viewed_events self !! author = Some records).
    { subst records. destruct (last_viewed_events self !! author); [reflexivity |].
      simpl in Hl. discriminate. }
    subst e'. rewrite (schedule_remove_deletes _ _ _ _ svc records eid label title)
      by (assumption || lia).
    simpl. destruct (remove_calendar_event_calls svc eid
                       (send ("Attempting to remove event: [" ++ PyStr.str_of_int i
                                ++ "] " ++ label ++ ": " ++ title ++ " (ID: "
                                ++ PyStr.take 6 eid ++ "...)...") e)) as (Hc & Hp & _).
    split; assumption. }
  assert (Hout : ~ (1 <= i <= Z.of_nat (length records)) ->
                 calls e' = calls e /\ remote e' = remote e
                 /\ outbox e' = (outbox e ++ [match records with
                                              | [] => MSG_VIEW_FIRST
                                              | _ => MSG_INVALID_ID i
                                              end])%list).
  { intros Hi. subst e'. destruct records as [| r rest] eqn:Hrec.
    - rewrite (schedule_remove_view_first _ _ _ _ svc) by assumption. now simpl.
    - assert (Hr : last_viewed_events self !! author = Some (r :: rest)).
      { subst records. destruct (last_viewed_events self !! author);
          simpl in Hrec; [now subst | discriminate]. }
      rewrite (schedule_remove_invalid_id _ _ _ _ svc (r :: rest))
        by (assumption || discriminate).
      now simpl. }
  split; [split | split; [assumption | split; [assumption |]]].
  - intros [eid Hc].
    destruct (decide (1 <= i <= Z.of_nat (length records))) as [Hi | Hi]; [assumption |].
    destruct (Hout Hi) as (Hc' & _). rewrite Hc' in Hc.
    apply (f_equal length) in Hc. rewrite length_app in Hc. simpl in Hc. lia.
  - intros Hi. destruct (Hin Hi) as (eid & _ & _ & _ & Hc & _). now exists eid.
  - intros j rec_i rec_j Hnd Hij Hi Hj Hli Hlj Heq.
    assert (Z.to_nat (i - 1) = Z.to_nat (j - 1)); [| lia].
    apply (NoDup_lookup _ _ _ (rec_i.1.1) Hnd);
      rewrite list_lookup_fmap; [now rewrite Hli | now rewrite Hlj, Heq].
Qed.

(** C5. A view whose fetch fails softly overwrites the entry of the
    requester with the empty sequence, whatever was cached before; a
    remove from that requester, with any index, is then answered with
    the guidance to view first and issues no call, exactly as it is
    when the entry is missing. *)
Theorem C5_failed_view_empties_the_snapshot self e today author day_str d p ex :
  reachable self e ->
  parse_relative_date parser_parse today day_str = Return (Some d) ->
  events_list (remote e) (d * US_PER_DAY) (d * US_PER_DAY + (US_PER_DAY - 1))
  = (p, Raise ex) ->
  let self' := fst (schedule_view self today author day_str e) in
  let e' := snd (schedule_view self today author day_str e) in
  last_viewed_events self' !! author = Some []
  /\ forall i,
       let e'' := snd (schedule_remove self' author i e') in
       outbox e'' = (outbox e' ++ [MSG_VIEW_FIRST])%list
       /\ calls e'' = calls e' /\ remote e'' = remote e'
       /\ e'' = snd (schedule_remove
                       {| calendar_service := calendar_service self';
                          last_viewed_events := delete author (last_viewed_events self') |}
                       author i e').
Proof.
  intros Hreach Hparse Hlist self' e'.
  destruct (reachable_has_service _ _ Hreach) as [svc Hs].
  assert (Hs' : calendar_service self' = Some svc).
  { subst self'. now rewrite schedule_view_keeps_service. }
  assert (Hcache : last_viewed_events self' !! author = Some []).
  { subst self'. unfold schedule_view. rewrite Hs, Hparse.
    destruct (get_events_for_day_raised svc d
                (send ("Fetching schedule for " ++ strftime_A_B_d_Y d
                         ++ " from Google Calendar...") e) p ex Hlist)
      as (text & e2 & Hg & _).
    rewrite Hg. simpl. apply lookup_insert_eq. }
  split; [assumption |]. intros i e''. subst e''.
  rewrite (schedule_remove_view_first self' author i e' svc Hs')
    by now rewrite Hcache.
  rewrite (schedule_remove_view_first _ author i e' svc);
    [| assumption | simpl; now rewrite lookup_delete_eq].
  simpl. auto.
Qed.

(** C6 (amended). For a time string on which [parser.parse] raises,
    whatever the exception, the add command issues no request to the
    provider, which stays as it was, keeps the cog, and replies with one
    message: the time parse error for a [ParserError], the text of lines
    197-199 for another [ValueError], and the unexpected error of lines
    200-202 for every other exception, an [OverflowError] among them. *)
Theorem C6_unparseable_time_inserts_nothing
    self e now summary_ time_str duration_minutes ex :
  reachable self e ->
  parser_parse time_str (combine (now / US_PER_DAY) 0) = Raise ex ->
  let e' := snd (schedule_add self now summary_ time_str duration_minutes e) in
  fst (schedule_add self now summary_ time_str duration_minutes e) = self
  /\ calls e' = calls e /\ remote e' = remote e
  /\ outbox e'
     = (outbox e
          ++ [match ex with
              | ParserError => MSG_TIME_PARSE_ERROR time_str
              | ValueError ve =>
                  ("Error processing time or duration. Please check your input: "
                     ++ ve)%string
              | _ => MSG_ADD_UNEXPECTED
              end])%list.
Proof.
  intros Hreach Hparse e'. destruct (reachable_has_service _ _ Hreach) as [svc Hs].
  subst e'. unfold schedule_add. rewrite Hs, Hparse.
  destruct ex; simpl; auto.
Qed.

(** C7. When the delete request fails with an HTTP error, status 404 or
    410 gives the warning that the event was not found, which carries no
    error prefix, and every other status gives the error message. *)
Theorem C7_delete_not_found_is_a_warning svc event_id e p status text :
  events_delete (remote e) event_id = (p, Raise (HttpError status text)) ->
  let outcome := fst (remove_calendar_event (Some svc) event_id e) in
  (status = 404 \/ status = 410 ->
   outcome = MSG_NOT_FOUND /\ signals_error outcome = false)
  /\ (status <> 404 -> status <> 410 ->
      outcome = "Error: An HTTP error occurred while removing the event: " ++ text
      /\ signals_error outcome = true).
Proof.
  intros H outcome. subst outcome. unfold remove_calendar_event, execute_delete.
  rewrite H. split.
  - intros Hst. replace ((status =? 404) || (status =? 410)) with true
      by (symmetry; apply orb_true_iff; rewrite !Z.eqb_eq; assumption).
    split; reflexivity.
  - intros H1 H2. replace ((status =? 404) || (status =? 410)) with false
      by (symmetry; apply orb_false_iff; split; apply Z.eqb_neq; assumption).
    split; reflexivity.
Qed.

(** C8. A remove with an index in range whose delete succeeds leaves
    the cache as it was: no entry is changed, fetched again or
    renumbered. *)
Theorem C8_successful_remove_keeps_the_cache
    self e author i records eid label title p :
  reachable self e ->
  last_viewed_events self !! author = Some records ->
  1 <= i <= Z.of_nat (length records) ->
  records !! Z.to_nat (i - 1) = Some (eid, label, title) ->
  events_delete (remote e) eid = (p, Return tt) ->
  let self' := fst (schedule_remove self author i e) in
  let e' := snd (schedule_remove self author i e) in
  last_viewed_events self' = last_viewed_events self
  /\ calls e' = (calls e ++ [events_delete_call eid])%list
  /\ exists notice, outbox e' = (outbox e ++ [notice; MSG_REMOVED])%list.
Proof.
  intros Hreach Hr Hi Hl Hdel self' e'.
  destruct (reachable_has_service _ _ Hreach) as [svc Hs].
  subst self' e'. rewrite schedule_remove_keeps_cog. split; [reflexivity |].
  rewrite (schedule_remove_deletes _ _ _ _ svc records eid label title)
    by (assumption || lia).
  unfold remove_calendar_event, execute_delete. simpl. rewrite Hdel. simpl.
  split; [reflexivity |]. eexists. now rewrite <- app_assoc.
Qed.

(** A view followed by a remove: the index shown for an event leads back
    to that event. After a view that listed [events], the remove of
    index [i] asks the provider to delete the event listed in position
    [i]. *)
Lemma view_then_remove_deletes_the_listed_event
    self e today author day_str d p events i ev :
  reachable self e ->
  parse_relative_date parser_parse today day_str = Return (Some d) ->
  events_list (remote e) (d * US_PER_DAY) (d * US_PER_DAY + (US_PER_DAY - 1))
  = (p, Return events) ->
  1 <= i -> events !! Z.to_nat (i - 1) = Some ev ->
  let self' := fst (schedule_view self today author day_str e) in
  let e' := snd (schedule_view self today author day_str e) in
  last_viewed_events self' !! author = Some (map details_of events)
  /\ calls (snd (schedule_remove self' author i e'))
     = (calls e' ++ [events_delete_call (id ev)])%list.
Proof.
  intros Hreach Hparse Hlist Hi Hev self' e'.
  destruct (reachable_has_service _ _ Hreach) as [svc Hs].
  assert (Hs' : calendar_service self' = Some svc).
  { subst self'. now rewrite schedule_view_keeps_service. }
  assert (Hcache : last_viewed_events self' !! author = Some (map details_of events)).
  { subst self'. unfold schedule_view. rewrite Hs, Hparse.
    destruct (get_events_for_day_records svc d
                (send ("Fetching schedule for " ++ strftime_A_B_d_Y d
                         ++ " from Google Calendar...") e) p events Hlist)
      as (text & e2 & Hg).
    rewrite Hg. simpl. apply lookup_insert_eq. }
  split; [assumption |].
  rewrite (schedule_remove_deletes self' author i e' svc (map details_of events)
             (id ev) (time_label ev) (event_summary_of ev) Hs' Hcache Hi)
    by (rewrite list_lookup_fmap, Hev; reflexivity).
  simpl.
  destruct (remove_calendar_event_calls svc (id ev)
              (send ("Attempting to remove event: [" ++ PyStr.str_of_int i ++ "] "
                       ++ time_label ev ++ ": " ++ event_summary_of ev ++ " (ID: "
                       ++ PyStr.take 6 (id ev) ++ "...)...") e')) as (Hc & _).
  exact Hc.
Qed.

End CogProperties.

(** ** The properties on the test double *)

Import TestDouble.

Lemma cog_reachable e : reachable (C := double) cog e.
Proof. apply (reachable_setup (Some CalendarService)). reflexivity. Qed.

Lemma viewed_reachable : reachable (C := double) (fst viewed) (snd viewed).
Proof.
  apply (reachable_run (view_command day 7 "today") cog (quiet three_events)).
  - apply cog_reachable.
  - unfold viewed. simpl run. apply surjective_pairing.
Qed.

Lemma during_outage_reachable : reachable (C := double) (fst viewed) during_outage.
Proof. apply (reachable_remote (fst viewed) (snd viewed) outage), viewed_reachable. Qed.

Example spec_scenario_20_april_2025 :
  fst (get_events_for_day (C := double) (Some CalendarService) day (quiet three_events))
  = (PyStr.join newline ["**Schedule for Sunday, April 20, 2025:**";
                         "`[1]` 09:30 AM (60 min): Standup";
                         "`[2]` All Day: Holiday";
                         "`[3]` 03:00 PM (30 min): No Title"],
     [("ev1", "09:30 AM (60 min)", "Standup"); ("ev2", "All Day", "Holiday");
      ("ev3", "03:00 PM (30 min)", "No Title")]).
Proof. reflexivity. Qed.

Example no_events_20_april_2025 :
  fst (get_events_for_day (C := double) (Some CalendarService) day (quiet empty_day))
  = ("No events found for Sunday, April 20, 2025.", []).
Proof. reflexivity. Qed.

Example remove_1_2_3_of_three_records :
  map (fun i => calls (snd (schedule_remove (fst viewed) 7 i (snd viewed)))) [1; 2; 3]
  = map (fun eid => (calls (snd viewed) ++ [events_delete_call eid])%list)
        ["ev1"; "ev2"; "ev3"].
Proof. reflexivity. Qed.

Example remove_0_and_4_of_three_records :
  map (fun i => calls (snd (schedule_remove (fst viewed) 7 i (snd viewed)))) [0; 4]
  = [calls (snd viewed); calls (snd viewed)].
Proof. reflexivity. Qed.

Example remove_without_view :
  schedule_remove (C := double) cog 7 1 (quiet three_events)
  = (cog, send MSG_VIEW_FIRST (quiet three_events)).
Proof. reflexivity. Qed.

(** C2, where the claim fails: with a snapshot of three records, index 4
    is answered with a text that is the same for every snapshot and
    mentions neither bound of the range 1..3. *)
Lemma C2_reply_names_no_range :
  length (default [] (last_viewed_events (fst viewed) !! 7)) = 3%nat
  /\ outbox (snd (schedule_remove (fst viewed) 7 4 (snd viewed)))
     = (outbox (snd viewed)
        ++ ["Error: Invalid ID '4'. Please use `!schedule view` and provide a valid number from the list."])%list
  /\ names_range
       "Error: Invalid ID '4'. Please use `!schedule view` and provide a valid number from the list."
       1 3 = false.
Proof. repeat split; reflexivity. Qed.

Lemma C2_witness :
  reachable (C := double) (fst viewed) (snd viewed)
  /\ calls (snd (schedule_remove (fst viewed) 7 2 (snd viewed)))
     = (calls (snd viewed) ++ [events_delete_call "ev2"])%list.
Proof.
  split; [exact viewed_reachable |].
  destruct (C2_remove_deletes_iff_index_in_snapshot (fst viewed) (snd viewed) 7 2
              viewed_reachable) as (_ & Hin & _).
  destruct Hin as (eid & label & title & Hl & Hc & _).
  - vm_compute. split; discriminate.
  - vm_compute in Hl. injection Hl as <- _ _. exact Hc.
Defined.

(** C3, where the claim fails: the line of the first event carries
    backquotes around the bracketed index, so it is not the line
    [[1] All Day: Holiday] that the claim describes. *)
Lemma C3_line_has_backquotes :
  fst (get_events_for_day (C := double) (Some CalendarService) day (quiet one_event))
  = (PyStr.join newline ["**Schedule for Sunday, April 20, 2025:**";
                         "`[1]` All Day: Holiday"],
     [("ev2", "All Day", "Holiday")])
  /\ spec_rendered_line 1 "All Day" "Holiday" = "[1] All Day: Holiday"
  /\ "`[1]` All Day: Holiday" <> spec_rendered_line 1 "All Day" "Holiday".
Proof. repeat split; (reflexivity || discriminate). Qed.

Lemma C3_witness :
  exists lines records,
    fst (get_events_for_day (C := double) (Some CalendarService) day (quiet three_events))
    = (PyStr.join newline (schedule_header day :: lines), records)
    /\ length lines = 3%nat /\ length records = 3%nat
    /\ forall (i : nat) ev, held three_events !! i = Some ev ->
         lines !! i = Some ("`[" ++ PyStr.str_of_int (Z.of_nat i + 1) ++ "]` "
                              ++ time_label (C := double) ev ++ ": " ++ event_summary_of ev)
         /\ records !! i = Some (id ev, time_label (C := double) ev, event_summary_of ev).
Proof.
  apply (C3_rendered_lines_and_records (C := double) CalendarService day
           (quiet three_events) three_events (held three_events)).
  - reflexivity.
  - simpl. lia.
Defined.

Lemma C4_witness :
  exists text,
    fst (get_events_for_day (C := double) (Some CalendarService) day (quiet outage))
    = (text, [])
    /\ signals_error text = true.
Proof.
  apply (C4_fetch_fails_softly (C := double) CalendarService day (quiet outage) outage
           (HttpError 503 "Service Unavailable")).
  reflexivity.
Defined.

Lemma C5_witness :
  last_viewed_events (fst viewed) !! 7 = Some (map (details_of (C := double)) (held three_events))
  /\ last_viewed_events (fst (schedule_view (fst viewed) day 7 "today" during_outage)) !! 7
     = Some [].
Proof.
  split; [reflexivity |].
  apply (C5_failed_view_empties_the_snapshot (C := double) (fst viewed) during_outage
           day 7 "today" day outage (HttpError 503 "Service Unavailable")).
  - exact during_outage_reachable.
  - reflexivity.
  - reflexivity.
Defined.

(** C6, where the claim fails: on a number too large for a year the
    parser raises [OverflowError], and the reply is the unexpected error,
    not the time parse error. Nothing is inserted. *)
Lemma C6_overflow_is_not_a_time_parse_error :
  let e' := snd (schedule_add (C := double_huge_year) cog (day * US_PER_DAY) "Meeting"
                   "999999999999999" 60 (quiet_huge_year three_events)) in
  parser_parse (Collaborators := double_huge_year) "999999999999999"
    (combine (day * US_PER_DAY / US_PER_DAY) 0)
  = Raise (OverflowError "signed integer is greater than maximum")
  /\ outbox e' = ["An unexpected error occurred while adding the event."]
  /\ outbox e' <> [MSG_TIME_PARSE_ERROR "999999999999999"]
  /\ calls e' = [] /\ remote e' = three_events.
Proof.
  vm_compute. repeat split. discriminate.
Qed.

Lemma C6_witness :
  outbox (snd (schedule_add (C := double) cog (day * US_PER_DAY) "Meeting" "not a time" 60
                 (quiet three_events)))
  = ["Error: Could not understand the time 'not a time'. Please use formats like '3pm', '15:00', 'tomorrow 10am', '2025-04-20 14:30'."].
Proof.
  apply (C6_unparseable_time_inserts_nothing (C := double) cog (quiet three_events)
           (day * US_PER_DAY) "Meeting" "not a time" 60 ParserError).
  - apply cog_reachable.
  - reflexivity.
Defined.

Lemma C7_witness :
  fst (remove_calendar_event (C := double) (Some CalendarService) "ev1" (quiet gone))
  = MSG_NOT_FOUND
  /\ signals_error MSG_NOT_FOUND = false.
Proof.
  apply (C7_delete_not_found_is_a_warning (C := double) CalendarService "ev1" (quiet gone)
           gone 410 "Gone").
  - reflexivity.
  - right. reflexivity.
Defined.

Lemma C8_witness :
  last_viewed_events (fst (schedule_remove (fst viewed) 7 2 (snd viewed)))
  = last_viewed_events (fst viewed).
Proof.
  apply (C8_successful_remove_keeps_the_cache (C := double) (fst viewed) (snd viewed) 7 2
           (map (details_of (C := double)) (held three_events)) "ev2" "All Day" "Holiday"
           {| held := [standup; review]; failure := None |}).
  - exact viewed_reachable.
  - reflexivity.
  - simpl. lia.
  - reflexivity.
  - reflexivity.
Defined.

Lemma C9_witness :
  fst (get_events_for_day (C := double) (Some CalendarService) day (quiet empty_day))
  = ("No events found for " ++ strftime_A_B_d_Y day ++ ".", []).
Proof.
  apply (C9_no_events_sentence (C := double) CalendarService day (quiet empty_day) empty_day).
  - unfold valid_date. vm_compute. split; discriminate.
  - reflexivity.
Defined.

(** * Further properties of the code *)

(** ** The resolver, whatever the parser *)
Section ResolverProperties.

(** X1. The branch that [parse_relative_date] keeps for weekday names is
    not entered for a weekday name: in any letter case the parser of
    dateutil takes the name and does not raise [ParserError], so the
    result is the one of lines 290-291, the date of what the parser
    returned, or nothing when the parser raised something else. *)
Theorem a_weekday_name_does_not_reach_the_weekday_branch rest D k W s :
  PyStr.index W weekdays = Some k -> any_case s W ->
  Dateutil.parse rest s (combine D 0) <> Raise ParserError
  /\ parse_relative_date (Dateutil.parse rest) D s
     = match Dateutil.parse rest s (combine D 0) with
       | Return parsed_dt => Return (Some (date_of parsed_dt))
       | Raise _ => Return None
       end.
Proof.
  intros HW Hs. apply weekdays_index in HW.
  assert (HW' : no_capital W = true /\ Dateutil.is_word W = true
               /\ Dateutil.convert Dateutil.WEEKDAYS 0 W = Some k
               /\ PyStr.strip W = W
               /\ (W =? "today")%string = false /\ (W =? "tomorrow")%string = false
               /\ (W =? "yesterday")%string = false).
  { repeat (apply elem_of_cons in HW as [[= -> ->] | HW];
            [repeat split; reflexivity |]).
    inversion HW. }
  destruct HW' as (Hn & Hw & Hi & Hst & H1 & H2 & H3).
  pose proof (lower_any_case s W Hs Hn) as Hl.
  pose proof (is_word_any_case s W Hs Hw) as Hws.
  assert (Hparse : Dateutil.parse rest s (combine D 0) <> Raise ParserError).
  { unfold Dateutil.parse. rewrite Hws.
    unfold Dateutil.info_weekday. rewrite Hl, Hi.
    unfold Dateutil.add_relativedelta_weekday, datetime_add_days, add_days.
    destruct (_ && _); discriminate. }
  split; [exact Hparse |].
  unfold parse_relative_date. rewrite Hl, Hst, H1, H2, H3.
  destruct (Dateutil.parse rest s (combine D 0)) as [parsed | ex]; [reflexivity |].
  destruct ex; try reflexivity. congruence.
Qed.

(** X2. A weekday name on its own, in any letter case, resolves to the first
    day on or after today that falls on that weekday: today itself or one
    of the six days that follow. *)
Theorem a_weekday_name_resolves_to_its_coming_day rest D k W s :
  PyStr.index W weekdays = Some k -> any_case s W ->
  valid_date D -> valid_date (D + 6) ->
  exists j, 0 <= j <= 6 /\ weekday (D + j) = k
            /\ (j = 0 <-> weekday D = k)
            /\ parse_relative_date (Dateutil.parse rest) D s = Return (Some (D + j)).
Proof.
  intros HW Hs HD HD6.
  assert (Hk : 0 <= k <= 6).
  { pose proof (weekdays_index W k HW) as Hin.
    repeat (apply elem_of_cons in Hin as [[= -> ->] | Hin]; [lia |]).
    now apply elem_of_nil in Hin. }
  exists ((7 - weekday D + k) mod 7).
  pose proof (Z.mod_pos_bound (7 - weekday D + k) 7 ltac:(lia)) as Hj.
  pose proof (Z.mod_pos_bound (D + 6) 7 ltac:(lia)) as Hw.
  unfold valid_date in *.
  split; [lia |]. split; [| split].
  - unfold weekday in *.
    rewrite <- Z.add_assoc, (Z.add_comm _ 6), Z.add_assoc.
    rewrite Zplus_mod_idemp_r.
    replace (D + 6 + (7 - (D + 6) mod 7 + k)) with (k + (D + 6 - (D + 6) mod 7) + 1 * 7)
      by lia.
    rewrite Z.mod_add by lia.
    rewrite (Z.div_mod (D + 6) 7) at 1 by lia.
    replace (k + (7 * ((D + 6) / 7) + (D + 6) mod 7 - (D + 6) mod 7))
      with (k + ((D + 6) / 7) * 7) by lia.
    rewrite Z.mod_add by lia. apply Z.mod_small. lia.
  - unfold weekday in *. split.
    + intros H0. apply Z.mod_divide in H0; [| lia]. destruct H0 as [q Hq]. lia.
    + intros <-. replace (7 - (D + 6) mod 7 + (D + 6) mod 7) with (1 * 7) by lia.
      apply Z.mod_mul. lia.
  - apply (dateutil_weekday_resolution rest D k W s HW Hs). unfold valid_date. lia.
Qed.

(** X3. Between 0001-01-02 and 9999-12-24 the resolver never raises, whatever
    the text and whatever the parser does with it: it returns a date or
    nothing. Outside, the date arithmetic of "tomorrow", "yesterday" and
    of the weekday names can overflow, and that exception is not caught. *)
Theorem parse_relative_date_does_not_raise parse D s :
  2 <= D <= MAXORDINAL - 7 ->
  exists r, parse_relative_date parse D s = Return r.
Proof.
  intros HD. unfold parse_relative_date.
  assert (Hadd : forall n, -1 <= n <= 7 -> add_days D n = Return (D + n)).
  { intros n Hn. apply add_days_valid. unfold valid_date. lia. }
  destruct (String.eqb _ "today"); [eauto |].
  destruct (String.eqb _ "tomorrow"); [rewrite Hadd by lia; eauto |].
  destruct (String.eqb _ "yesterday"); [rewrite Hadd by lia; eauto |].
  destruct (parse s (combine D 0)) as [parsed | ex]; [eauto |].
  destruct ex; eauto.
  destruct (PyStr.index _ weekdays) as [k |]; [| eauto].
  pose proof (Z.mod_pos_bound (k - weekday D + 7) 7 ltac:(lia)) as Hm.
  destruct (Z.eqb_spec ((k - weekday D + 7) mod 7) 0);
    rewrite Hadd by lia; eauto.
Qed.

End ResolverProperties.

(** ** [send_long_message] *)
Section SendLongMessage.

Import DiscordUtils.

Lemma adjust_id n i : 0 <= i <= n -> adjust n i = i.
Proof.
  intros H. unfold adjust. destruct (Z.ltb_spec i 0); lia.
Qed.

Lemma adjust_le n i : 0 <= n -> 0 <= adjust n i <= n.
Proof. intros H. unfold adjust. destruct (Z.ltb_spec i 0); lia. Qed.


Lemma len_nonneg s : 0 <= len s.
Proof. unfold len. lia. Qed.

Lemma rfind_scan_range c s i lo hi found :
  let r := rfind_scan c s i lo hi found in
  r = found \/ (lo <= r < hi /\ i <= r).
Proof.
  revert i found. induction s as [| x s IH]; intros i found; simpl; [now left |].
  destruct (IH (i + 1)
              (if (lo <=? i) && (i <? hi) && Ascii.eqb x c then i else found))
    as [H | H].
  - rewrite H. destruct ((lo <=? i) && (i <? hi) && Ascii.eqb x c) eqn:E; [| now left].
    right. apply andb_true_iff in E as [E _]. apply andb_true_iff in E as [E1 E2].
    apply Z.leb_le in E1. apply Z.ltb_lt in E2. lia.
  - right. lia.
Qed.

Lemma rfind_range text c a b :
  rfind text c a b = -1
  \/ adjust (len text) a <= rfind text c a b < adjust (len text) b.
Proof.
  unfold rfind. destruct (rfind_scan_range c text 0 (adjust (len text) a)
                            (adjust (len text) b) (-1)) as [H | H]; [now left | right; lia].
Qed.

(** The split position of a round, as [send_step] computes it. *)
Lemma split_pos_bounds text current_pos end_pos :
  current_pos < end_pos -> end_pos <= len text ->
  let split_pos := rfind text "010" current_pos end_pos in
  let split_pos :=
    if (split_pos =? -1) || (split_pos <=? current_pos) then
      let split_pos := rfind text " " current_pos end_pos in
      if (split_pos =? -1) || (split_pos <=? current_pos) then end_pos else split_pos
    else split_pos in
  current_pos < split_pos <= len text /\ (0 <= end_pos -> split_pos <= end_pos).
Proof.
  intros Hlt Hle. cbv zeta. pose proof (len_nonneg text) as Hn.
  pose proof (adjust_le (len text) end_pos Hn) as Hu.
  assert (Hid : 0 <= end_pos -> adjust (len text) end_pos = end_pos)
    by (intros; apply adjust_id; lia).
  destruct (rfind_range text "010" current_pos end_pos) as [H1 | H1];
    destruct (rfind_range text " " current_pos end_pos) as [H2 | H2];
    repeat match goal with
           | |- context [if ?b then _ else _] =>
               let E := fresh "E" in destruct b eqn:E
           end;
    repeat match goal with
           | E : (_ || _) = false |- _ => apply orb_false_iff in E as [? ?]
           | E : (_ =? _) = false |- _ => apply Z.eqb_neq in E
           | E : (_ <=? _) = false |- _ => apply Z.leb_gt in E
           end; lia.
Qed.

Lemma append_nil b : "" ++ b = b.
Proof. reflexivity. Qed.

Lemma append_cons c a b : String c a ++ b = String c (a ++ b).
Proof. reflexivity. Qed.

Lemma append_assoc a b c : (a ++ b) ++ c = a ++ (b ++ c).
Proof.
  induction a as [| x a IH]; [reflexivity |]. rewrite !append_cons. congruence.
Qed.

Lemma len_append a b : len (a ++ b) = len a + len b.
Proof.
  unfold len. induction a as [| c a IH]; [now rewrite append_nil |].
  rewrite append_cons. simpl. lia.
Qed.

Lemma len_of_list l : len (string_of_list_ascii l) = Z.of_nat (length l).
Proof. unfold len. induction l; simpl; lia. Qed.

Lemma length_to_list s : length (list_ascii_of_string s) = String.length s.
Proof. induction s; simpl; congruence. Qed.

Lemma of_list_app l1 l2 :
  string_of_list_ascii (l1 ++ l2) = string_of_list_ascii l1 ++ string_of_list_ascii l2.
Proof.
  induction l1 as [| c l1 IH]; [reflexivity |].
  simpl. rewrite append_cons. congruence.
Qed.

Lemma len_empty s : len s = 0 -> s = "".
Proof. unfold len. destruct s; simpl; [reflexivity | lia]. Qed.

Lemma slice_inside text a b :
  0 <= a <= b -> b <= len text ->
  slice text a b
  = string_of_list_ascii
      (take (Z.to_nat (b - a)) (drop (Z.to_nat a) (list_ascii_of_string text))).
Proof.
  intros Ha Hb. unfold slice. cbv zeta. now rewrite !adjust_id by lia.
Qed.

Lemma slice_len text a b :
  0 <= a <= b -> b <= len text -> len (slice text a b) = b - a.
Proof.
  intros Ha Hb. rewrite slice_inside, len_of_list by assumption.
  rewrite length_take, length_drop, length_to_list. unfold len in Hb. lia.
Qed.

Lemma slice_app text a b c :
  0 <= a <= b -> b <= c -> c <= len text ->
  slice text a b ++ slice text b c = slice text a c.
Proof.
  intros Ha Hb Hc. rewrite !slice_inside by lia. rewrite <- of_list_app. f_equal.
  replace (Z.to_nat b) with (Z.to_nat a + Z.to_nat (b - a))%nat by lia.
  rewrite <- drop_drop, take_take_drop. f_equal. lia.
Qed.

Lemma slice_all text : slice text 0 (len text) = text.
Proof.
  rewrite slice_inside by (pose proof (len_nonneg text); lia).
  rewrite drop_0, take_ge by (rewrite length_to_list; unfold len; lia).
  apply string_of_list_ascii_of_string.
Qed.

Lemma slice_empty text a : 0 <= a <= len text -> slice text a a = "".
Proof.
  intros Ha. rewrite slice_inside by lia. now rewrite Z.sub_diag.
Qed.

Lemma without_space_app a b :
  without_space (a ++ b) = without_space a ++ without_space b.
Proof.
  induction a as [| c a IH]; [reflexivity |].
  rewrite append_cons. simpl. destruct (PyStr.is_space c); [assumption |].
  rewrite append_cons. congruence.
Qed.

Lemma without_space_lstrip s : without_space (PyStr.lstrip s) = without_space s.
Proof. induction s as [| c s IH]; simpl; [reflexivity |]. destruct (PyStr.is_space c) eqn:E; simpl; [assumption | now rewrite E]. Qed.

Lemma without_space_rstrip s : without_space (PyStr.rstrip s) = without_space s.
Proof.
  induction s as [| c s IH]; simpl; [reflexivity |].
  destruct (PyStr.rstrip s) as [| c' r] eqn:E.
  - simpl in IH. rewrite <- IH. destruct (PyStr.is_space c) eqn:Ec; simpl; now rewrite ?Ec.
  - change (without_space (String c (String c' r))) with
      (if PyStr.is_space c then without_space (String c' r)
       else String c (without_space (String c' r))).
    now rewrite IH.
Qed.

Lemma without_space_strip s : without_space (PyStr.strip s) = without_space s.
Proof. unfold PyStr.strip. now rewrite without_space_rstrip, without_space_lstrip. Qed.

Lemma len_lstrip s : len (PyStr.lstrip s) <= len s.
Proof. unfold len. induction s as [| c s IH]; simpl; [lia |]. destruct (PyStr.is_space c); simpl; lia. Qed.

Lemma len_rstrip s : len (PyStr.rstrip s) <= len s.
Proof.
  unfold len. induction s as [| c s IH]; simpl; [lia |].
  destruct (PyStr.rstrip s); [destruct (PyStr.is_space c) |]; simpl in *; lia.
Qed.

Lemma len_strip s : len (PyStr.strip s) <= len s.
Proof. unfold PyStr.strip. pose proof (len_rstrip (PyStr.lstrip s)). pose proof (len_lstrip s). lia. Qed.

(** Where a round leaves [current_pos]: never beyond the end of the text,
    and ahead of where it was as soon as the prefix leaves room. *)
Lemma send_step_next_bounds text message_prefix current_pos :
  current_pos < len text ->
  let next := snd (send_step text message_prefix current_pos) in
  Z.min (current_pos + 1) (current_pos + (MAX_LENGTH - len message_prefix)) <= next
  /\ next <= len text.
Proof.
  intros Hcur. unfold send_step. cbv zeta.
  set (end_pos := Z.min (current_pos + (MAX_LENGTH - len message_prefix)) (len text)).
  pose proof (len_nonneg text) as Hn.
  pose proof (adjust_le (len text) end_pos Hn) as Hu.
  assert (Hsplit :
    let split_pos := rfind text "010" current_pos end_pos in
    let split_pos :=
      if (split_pos =? -1) || (split_pos <=? current_pos) then
        let split_pos := rfind text " " current_pos end_pos in
        if (split_pos =? -1) || (split_pos <=? current_pos) then end_pos else split_pos
      else split_pos in
    Z.min (current_pos + 1) end_pos <= split_pos <= len text).
  { cbv zeta.
    destruct (rfind_range text "010" current_pos end_pos) as [H1 | H1];
      destruct (rfind_range text " " current_pos end_pos) as [H2 | H2];
      repeat match goal with
             | |- context [if ?b then _ else _] =>
                 let E := fresh "E" in destruct b eqn:E
             end;
      repeat match goal with
             | E : (_ || _) = false |- _ => apply orb_false_iff in E as [? ?]
             | E : (_ =? _) = false |- _ => apply Z.eqb_neq in E
             | E : (_ <=? _) = false |- _ => apply Z.leb_gt in E
             end; subst end_pos; lia. }
  cbv zeta in Hsplit. simpl snd.
  match goal with |- context [if ?b then _ else _] => destruct b end;
    subst end_pos; lia.
Qed.

(** A round when the prefix leaves room and the position is inside the
    text: it sends a message that is not empty, made of the prefix and of
    at most the room left, and it moves ahead; the message carries the
    characters of the part of the text it moved over, white space
    apart. *)
Lemma send_step_inside text message_prefix current_pos :
  0 <= current_pos < len text -> len message_prefix < MAX_LENGTH ->
  exists chunk next,
    send_step text message_prefix current_pos = (Some (message_prefix ++ chunk), next)
    /\ current_pos < next <= len text
    /\ 1 <= len chunk <= MAX_LENGTH - len message_prefix
    /\ without_space chunk = without_space (slice text current_pos next).
Proof.
  intros Hcur Hp. unfold send_step. cbv zeta.
  set (end_pos := Z.min (current_pos + (MAX_LENGTH - len message_prefix)) (len text)).
  assert (Hend : current_pos < end_pos <= len text) by (subst end_pos; lia).
  destruct (split_pos_bounds text current_pos end_pos) as [Hs1 Hs2]; try lia.
  cbv zeta in Hs1, Hs2.
  set (split_pos :=
         if (rfind text "010" current_pos end_pos =? -1)
            || (rfind text "010" current_pos end_pos <=? current_pos)
         then if (rfind text " " current_pos end_pos =? -1)
                 || (rfind text " " current_pos end_pos <=? current_pos)
              then end_pos else rfind text " " current_pos end_pos
         else rfind text "010" current_pos end_pos) in *.
  specialize (Hs2 ltac:(lia)).
  pose proof (slice_len text current_pos split_pos ltac:(lia) ltac:(lia)) as Hl1.
  pose proof (slice_len text current_pos end_pos ltac:(lia) ltac:(lia)) as Hl2.
  pose proof (len_strip (slice text current_pos split_pos)) as Hst.
  pose proof (without_space_strip (slice text current_pos split_pos)) as Hws.
  destruct (PyStr.strip (slice text current_pos split_pos)) as [| c r] eqn:Estrip.
  - destruct (slice text current_pos end_pos) as [| c r] eqn:Eslice.
    + unfold len in Hl2. simpl in Hl2. lia.
    + exists (String c r), end_pos. simpl String.eqb.
      split; [reflexivity |]. split; [lia |]. split; [subst end_pos; lia |].
      now rewrite Eslice.
  - exists (String c r), split_pos. rewrite String.eqb_refl.
    split; [reflexivity |]. split; [lia |]. split; [| assumption].
    assert (1 <= len (String c r)) by (unfold len; simpl; lia).
    subst end_pos. lia.
Qed.

Lemma send_loop_rest_ends text prefix fuel current_pos :
  current_pos <= len text -> len text - current_pos <= Z.of_nat fuel ->
  snd (send_loop fuel text prefix current_pos false) = len text.
Proof.
  revert current_pos. induction fuel as [| k IH]; intros cur Hle Hfuel.
  - simpl. lia.
  - cbn [send_loop]. destruct (Z.ltb_spec cur (len text)) as [Hlt | Hge]; [| simpl; lia].
    pose proof (send_step_next_bounds text "" cur Hlt) as Hb. cbv zeta in Hb.
    destruct (send_step text "" cur) as [sent next]. simpl in Hb.
    change (len "") with 0 in Hb. unfold MAX_LENGTH in Hb.
    specialize (IH next ltac:(lia) ltac:(lia)).
    destruct (send_loop k text prefix next false) as [rest last]. exact IH.
Qed.

Lemma send_loop_inside text prefix :
  len prefix < MAX_LENGTH ->
  forall fuel current_pos first_message,
    0 <= current_pos <= len text -> len text - current_pos <= Z.of_nat fuel ->
    Forall (fun m => 1 <= len m <= MAX_LENGTH)
      (fst (send_loop fuel text prefix current_pos first_message))
    /\ without_space (put_together (fst (send_loop fuel text prefix current_pos first_message)))
       = without_space ((if first_message && (current_pos <? len text) then prefix else "")
                          ++ slice text current_pos (len text)).
Proof.
  intros Hp. induction fuel as [| k IH]; intros cur first Hcur Hfuel.
  - simpl. assert (cur = len text) as -> by lia.
    rewrite Z.ltb_irrefl, andb_false_r, slice_empty by lia. now split.
  - cbn [send_loop]. destruct (Z.ltb_spec cur (len text)) as [Hlt | Hge].
    + assert (Hmp : len (if first then prefix else "") < MAX_LENGTH)
        by (destruct first; [assumption | reflexivity]).
      destruct (send_step_inside text (if first then prefix else "") cur
                  ltac:(lia) Hmp) as (chunk & next & Hstep & Hnext & Hlen & Hws).
      rewrite Hstep. specialize (IH next false ltac:(lia) ltac:(lia)).
      destruct (send_loop k text prefix next false) as [rest last].
      cbn [fst snd put_together] in *.
      destruct IH as [IH1 IH2]. split.
      * pose proof (len_nonneg (if first then prefix else "")).
        constructor; [rewrite len_append; lia | assumption].
      * rewrite andb_true_r, !without_space_app, IH2, Hws, append_nil.
        rewrite <- (slice_app text cur next (len text)) by lia.
        rewrite !without_space_app. apply append_assoc.
    + simpl. assert (cur = len text) as -> by lia.
      rewrite andb_false_r, slice_empty by lia. now split.
Qed.

(** X4. [send_long_message] returns: the rounds given to the loop are enough
    for it to leave with [current_pos = len(text)], whatever the text and
    the prefix. *)
Theorem send_long_message_loop_ends text prefix :
  snd (send_loop (S (String.length text + String.length prefix)) text prefix 0 true)
  = len text.
Proof.
  pose proof (len_nonneg text) as Hn. pose proof (len_nonneg prefix) as Hl.
  cbn [send_loop]. destruct (Z.ltb_spec 0 (len text)) as [Hlt | Hge]; [| simpl; lia].
  pose proof (send_step_next_bounds text prefix 0 Hlt) as Hb. cbv zeta in Hb.
  destruct (send_step text prefix 0) as [sent next]. simpl in Hb.
  unfold MAX_LENGTH in Hb.
  pose proof (send_loop_rest_ends text prefix
                (String.length text + String.length prefix) next) as H.
  destruct (send_loop (String.length text + String.length prefix) text prefix next false)
    as [rest last].
  simpl in *. apply H; unfold len in *; lia.
Qed.

(** X5. Every message that [send_long_message] sends has between 1 and 2000
    characters, the prefix included, when the prefix is shorter than
    2000. *)
Theorem send_long_message_fits text prefix :
  len prefix < MAX_LENGTH ->
  Forall (fun m => 1 <= len m <= MAX_LENGTH) (send_long_message text prefix).
Proof.
  intros Hp. pose proof (len_nonneg text).
  apply (send_loop_inside text prefix Hp); unfold len in *; lia.
Qed.

(** X6. Nothing of the text is lost or reordered: put end to end, the
    messages carry the prefix and the text, white space apart. An empty
    text sends nothing, not even the prefix. *)
Theorem send_long_message_keeps_the_text text prefix :
  len prefix < MAX_LENGTH ->
  without_space (put_together (send_long_message text prefix))
  = without_space ((if 0 <? len text then prefix else "") ++ text).
Proof.
  intros Hp. pose proof (len_nonneg text).
  destruct (send_loop_inside text prefix Hp
              (S (String.length text + String.length prefix)) 0 true) as [_ H2];
    [lia | unfold len in *; lia |].
  unfold send_long_message. rewrite H2, slice_all. reflexivity.
Qed.

Lemma rfind_scan_none c s i lo hi found :
  (forall q, (q < String.length s)%nat -> lo <= i + Z.of_nat q < hi ->
             String.get q s <> Some c) ->
  rfind_scan c s i lo hi found = found.
Proof.
  revert i found. induction s as [| x s IH]; intros i found H; [reflexivity |].
  simpl. rewrite IH.
  - destruct ((lo <=? i) && (i <? hi)) eqn:E; [| reflexivity].
    destruct (Ascii.eqb_spec x c) as [-> | Hne]; [| reflexivity].
    exfalso. apply andb_true_iff in E as [E1 E2].
    apply Z.leb_le in E1. apply Z.ltb_lt in E2.
    apply (H 0%nat); simpl; [lia | lia | reflexivity].
  - intros q Hq Hr. apply (H (S q)); simpl; lia.
Qed.

Lemma rfind_scan_last c s i lo hi found p :
  (p < String.length s)%nat -> lo <= i + Z.of_nat p < hi ->
  String.get p s = Some c ->
  (forall q, (p < q < String.length s)%nat -> i + Z.of_nat q < hi ->
             String.get q s <> Some c) ->
  rfind_scan c s i lo hi found = i + Z.of_nat p.
Proof.
  revert i found p. induction s as [| x s IH]; intros i found p Hp Hr Hget Hlast;
    [simpl in Hp; lia |].
  simpl. destruct p as [| p].
  - simpl in Hget. injection Hget as ->.
    replace ((lo <=? i) && (i <? hi)) with true
      by (symmetry; apply andb_true_iff; split; [apply Z.leb_le | apply Z.ltb_lt]; lia).
    rewrite Ascii.eqb_refl. simpl. rewrite rfind_scan_none; [lia |].
    intros q Hq Hrq. apply (Hlast (S q)); simpl; lia.
  - rewrite (IH (i + 1) _ p); [lia | simpl in Hp; lia | lia | exact Hget |].
    intros q Hq Hrq. apply (Hlast (S q)); simpl in *; lia.
Qed.

Lemma no_space_get s q c :
  no_space s = true -> String.get q s = Some c -> PyStr.is_space c = false.
Proof.
  revert q. induction s as [| x s IH]; intros q Hs Hg; [discriminate |].
  simpl in Hs. apply andb_true_iff in Hs as [Hx Hs].
  destruct q; simpl in Hg; [injection Hg as <-; now apply negb_true_iff | eauto].
Qed.

Lemma rfind_no_space text c a b :
  no_space text = true -> PyStr.is_space c = true -> rfind text c a b = -1.
Proof.
  intros Hs Hc. unfold rfind. apply rfind_scan_none.
  intros q _ _ Hg. pose proof (no_space_get text q c Hs Hg). congruence.
Qed.

Lemma no_space_strip s : no_space s = true -> PyStr.strip s = s.
Proof.
  intros Hs. unfold PyStr.strip.
  assert (Hl : PyStr.lstrip s = s).
  { destruct s as [| c s]; [reflexivity |]. simpl in *.
    apply andb_true_iff in Hs as [Hc _]. apply negb_true_iff in Hc. now rewrite Hc. }
  rewrite Hl. clear Hl. induction s as [| c s IH]; [reflexivity |].
  simpl in *. apply andb_true_iff in Hs as [Hc Hs]. apply negb_true_iff in Hc.
  rewrite (IH Hs), Hc. now destruct s.
Qed.

Lemma send_loop_at_end fuel text prefix first_message :
  send_loop fuel text prefix (len text) first_message = ([], len text).
Proof. destruct fuel; cbn [send_loop]; [reflexivity |]. now rewrite Z.ltb_irrefl. Qed.

(** X7. A text without white space that fits beside the prefix is sent as it
    is, in one message. *)
Theorem send_long_message_one_message text prefix :
  no_space text = true -> 1 <= len text <= MAX_LENGTH - len prefix ->
  send_long_message text prefix = [prefix ++ text].
Proof.
  intros Hs Hlen. unfold send_long_message. cbn [send_loop].
  replace (0 <? len text) with true by (symmetry; apply Z.ltb_lt; lia).
  assert (Hstep : send_step text prefix 0 = (Some (prefix ++ text), len text)).
  { unfold send_step. cbv zeta.
    replace (Z.min (0 + (MAX_LENGTH - len prefix)) (len text)) with (len text) by lia.
    rewrite !rfind_no_space by (assumption || reflexivity).
    cbn [Z.eqb orb]. rewrite slice_all, (no_space_strip text Hs).
    destruct text as [| c r]; [unfold len in Hlen; simpl in Hlen; lia |].
    now rewrite String.eqb_refl. }
  rewrite Hstep, send_loop_at_end. reflexivity.
Qed.

(** X8. A text is cut at the last line feed that the first message could
    hold, even when the whole text would fit in one message: the first
    message is the prefix and what stands before that line feed,
    stripped, and at least one more message follows. *)
Theorem send_long_message_cuts_at_last_line_feed text prefix (p : nat) :
  len prefix < MAX_LENGTH ->
  0 < Z.of_nat p < Z.min (MAX_LENGTH - len prefix) (len text) ->
  String.get p text = Some "010"%char ->
  (forall q : nat, Z.of_nat p < Z.of_nat q < Z.min (MAX_LENGTH - len prefix) (len text) ->
                   String.get q text <> Some "010"%char) ->
  PyStr.strip (slice text 0 (Z.of_nat p)) <> "" ->
  exists second rest,
    send_long_message text prefix
    = (prefix ++ PyStr.strip (slice text 0 (Z.of_nat p))) :: second :: rest.
Proof.
  intros Hp Hpos Hget Hlast Hne. unfold send_long_message. cbn [send_loop].
  replace (0 <? len text) with true by (symmetry; apply Z.ltb_lt; lia).
  assert (Hstep : send_step text prefix 0
                  = (Some (prefix ++ PyStr.strip (slice text 0 (Z.of_nat p))), Z.of_nat p)).
  { unfold send_step. cbv zeta. rewrite Z.add_0_l.
    set (end_pos := Z.min (MAX_LENGTH - len prefix) (len text)) in *.
    assert (Hr : rfind text "010" 0 end_pos = Z.of_nat p).
    { unfold rfind. rewrite !adjust_id by (subst end_pos; lia).
      rewrite (rfind_scan_last "010" text 0 0 end_pos (-1) p); try lia; try assumption.
      - unfold len in *. subst end_pos. lia.
      - intros q Hq Hqe. apply Hlast. lia. }
    rewrite Hr.
    replace ((Z.of_nat p =? -1) || (Z.of_nat p <=? 0)) with false
      by (symmetry; apply orb_false_iff; split; [apply Z.eqb_neq | apply Z.leb_gt]; lia).
    destruct (PyStr.strip (slice text 0 (Z.of_nat p))) as [| c r]; [congruence |].
    now rewrite String.eqb_refl. }
  rewrite Hstep.
  destruct (String.length text + String.length prefix)%nat as [| k] eqn:Hk;
    [unfold len in Hpos; lia |].
  cbn [send_loop].
  replace (Z.of_nat p <? len text) with true by (symmetry; apply Z.ltb_lt; lia).
  destruct (send_step_inside text "" (Z.of_nat p) ltac:(lia) ltac:(reflexivity))
    as (chunk & next & Hnext & _).
  rewrite Hnext.
  destruct (send_loop k text prefix next false) as [rest last].
  exists ("" ++ chunk), rest. reflexivity.
Qed.

End SendLongMessage.

(** ** The three commands together *)
Section CommandProperties.

Context `{C : Collaborators}.

Lemma add_calendar_event_calls svc now summary_ start_dt end_dt e :
  calls (snd (add_calendar_event (Some svc) now summary_ start_dt end_dt e))
  = (calls e ++ [events_insert_call
                   {| body_summary := summary_; body_start := start_dt;
                      body_end := end_dt; body_timeZone := local_tzname now |}])%list
  /\ outbox (snd (add_calendar_event (Some svc) now summary_ start_dt end_dt e)) = outbox e.
Proof.
  unfold add_calendar_event, execute_insert.
  destruct (events_insert _ _) as [p [created | ex]]; [now split |].
  destruct ex; now split.
Qed.

Lemma get_events_for_day_calls svc d e :
  calls (snd (get_events_for_day (Some svc) d e))
  = (calls e ++ [events_list_call (d * US_PER_DAY) (d * US_PER_DAY + (US_PER_DAY - 1))])%list
  /\ outbox (snd (get_events_for_day (Some svc) d e)) = outbox e.
Proof.
  unfold get_events_for_day, execute_list.
  destruct (events_list _ _ _) as [p [[| ev rest] | ex]]; [now split | |].
  - destruct (render_events _ _ _ _). now split.
  - destruct ex; now split.
Qed.

Lemma schedule_view_effects self today author day_str e :
  (calls (snd (schedule_view self today author day_str e)) = calls e
   /\ fst (schedule_view self today author day_str e) = self
   /\ exists msg, outbox (snd (schedule_view self today author day_str e))
                  = (outbox e ++ [msg])%list)
  \/ (exists svc d records chunks notice,
        calendar_service self = Some svc
        /\ parse_relative_date parser_parse today day_str = Return (Some d)
        /\ calls (snd (schedule_view self today author day_str e))
           = (calls e ++ [events_list_call (d * US_PER_DAY)
                            (d * US_PER_DAY + (US_PER_DAY - 1))])%list
        /\ last_viewed_events (fst (schedule_view self today author day_str e))
           = <[author := records]> (last_viewed_events self)
        /\ outbox (snd (schedule_view self today author day_str e))
           = (outbox e ++ notice :: chunks)%list).
Proof.
  unfold schedule_view. destruct (calendar_service self) as [svc |] eqn:Hs.
  - destruct (parse_relative_date _ _ _) as [[d |] | ex] eqn:Hp.
    + right.
      pose proof (get_events_for_day_calls svc d
                    (send ("Fetching schedule for " ++ strftime_A_B_d_Y d
                             ++ " from Google Calendar...") e)) as [Hc Ho].
      destruct (get_events_for_day (Some svc) d _) as [[text records] e2].
      cbn [fst snd] in *. exists svc, d, records, (send_long_message text). eexists.
      repeat split; cbn [calls outbox send_all send last_viewed_events] in *.
      * exact Hc.
      * rewrite Ho. now rewrite <- app_assoc.
    + left. repeat split. eexists. reflexivity.
    + left. repeat split. eexists. reflexivity.
  - left. repeat split. eexists. reflexivity.
Qed.

Lemma schedule_add_effects self now summary_ time_str duration_minutes e :
  (calls (snd (schedule_add self now summary_ time_str duration_minutes e)) = calls e
   /\ exists msg, outbox (snd (schedule_add self now summary_ time_str duration_minutes e))
                  = (outbox e ++ [msg])%list)
  \/ (exists body notice reply,
        request_of (add_command now summary_ time_str duration_minutes) self
          (events_insert_call body)
        /\ calls (snd (schedule_add self now summary_ time_str duration_minutes e))
           = (calls e ++ [events_insert_call body])%list
        /\ outbox (snd (schedule_add self now summary_ time_str duration_minutes e))
           = (outbox e ++ [notice; reply])%list).
Proof.
  unfold schedule_add. destruct (calendar_service self) as [svc |] eqn:Hs.
  - destruct (parser_parse _ _) as [parsed | ex].
    + destruct (in_range _ && in_range _) eqn:Hr.
      * right. apply andb_true_iff in Hr as [Hr1 Hr2].
        match goal with
        | |- context [add_calendar_event (Some svc) now summary_ ?s ?en ?e1] =>
            pose proof (add_calendar_event_calls svc now summary_ s en e1) as [Hc Ho];
            destruct (add_calendar_event (Some svc) now summary_ s en e1) as [reply e2]
        end.
        cbn [fst snd] in *. eexists. eexists. exists reply.
        split; [| split].
        2: { cbn [calls send] in *. exact Hc. }
        -- cbn [request_of body_summary body_start body_end]. auto.
        -- cbn [outbox send] in *. rewrite Ho. now rewrite <- app_assoc.
      * left. split; [reflexivity | eexists; reflexivity].
    + left. destruct ex; (split; [reflexivity | eexists; reflexivity]).
  - left. split; [reflexivity | eexists; reflexivity].
Qed.

Lemma schedule_remove_effects self author event_index e :
  (calls (snd (schedule_remove self author event_index e)) = calls e
   /\ exists msg, outbox (snd (schedule_remove self author event_index e))
                  = (outbox e ++ [msg])%list)
  \/ (exists eventId notice reply,
        request_of (remove_command author event_index) self (events_delete_call eventId)
        /\ calls (snd (schedule_remove self author event_index e))
           = (calls e ++ [events_delete_call eventId])%list
        /\ outbox (snd (schedule_remove self author event_index e))
           = (outbox e ++ [notice; reply])%list).
Proof.
  unfold schedule_remove. destruct (calendar_service self) as [svc |] eqn:Hs.
  - destruct (last_viewed_events self !! author) as [[| r records] |] eqn:Hl.
    + left. split; [reflexivity | eexists; reflexivity].
    + destruct (0 <=? event_index - 1) eqn:H0; cbn [andb].
      * destruct (event_index - 1 <? _) eqn:H1.
        -- destruct ((r :: records) !! Z.to_nat (event_index - 1))
             as [[[eid label] title] |] eqn:Hi.
           ++ right.
              match goal with
              | |- context [remove_calendar_event (Some svc) eid ?e1] =>
                  pose proof (remove_calendar_event_calls svc eid e1) as (Hc & _ & Ho);
                  destruct (remove_calendar_event (Some svc) eid e1) as [reply e2]
              end.
              cbn [fst snd] in *. exists eid. eexists. exists reply.
              split; [| split].
              ** cbn [request_of]. exists (r :: records), label, title.
                 apply Z.leb_le in H0. split; [exact Hl | split; [lia | exact Hi]].
              ** cbn [calls send] in *. exact Hc.
              ** cbn [outbox send] in *. rewrite Ho. now rewrite <- app_assoc.
           ++ left. split; [reflexivity | eexists; reflexivity].
        -- left. split; [reflexivity | eexists; reflexivity].
      * left. split; [reflexivity | eexists; reflexivity].
    + left. split; [reflexivity | eexists; reflexivity].
  - left. split; [reflexivity | eexists; reflexivity].
Qed.

(** X9. A command asks the provider at most one thing, the request of its own
    kind, and never asks twice. *)
Theorem a_command_sends_at_most_one_request c self e :
  calls (snd (run c self e)) = calls e
  \/ exists k, calls (snd (run c self e)) = (calls e ++ [k])%list /\ request_of c self k.
Proof.
  destruct c as [today author day_str | now summary_ time_str minutes | author i];
    cbn [run].
  - destruct (schedule_view_effects self today author day_str e)
      as [(Hc & _) | (svc & d & records & chunks & notice & _ & Hp & Hc & _)];
      [now left | right].
    eexists. split; [exact Hc |]. cbn [request_of]. now exists d.
  - destruct (schedule_add_effects self now summary_ time_str minutes e)
      as [(Hc & _) | (body & notice & reply & Hr & Hc & _)]; [now left | right].
    now exists (events_insert_call body).
  - destruct (schedule_remove_effects self author i e)
      as [(Hc & _) | (eid & notice & reply & Hr & Hc & _)]; [now left | right].
    now exists (events_delete_call eid).
Qed.

(** X10. Every command answers: it adds at least one message to those already
    sent and changes none of them. *)
Theorem every_command_answers c self e :
  exists first more, outbox (snd (run c self e)) = (outbox e ++ first :: more)%list.
Proof.
  destruct c as [today author day_str | now summary_ time_str minutes | author i];
    cbn [run].
  - destruct (schedule_view_effects self today author day_str e)
      as [(_ & _ & msg & Ho) | (svc & d & records & chunks & notice & _ & _ & _ & _ & Ho)];
      eauto.
  - destruct (schedule_add_effects self now summary_ time_str minutes e)
      as [(_ & msg & Ho) | (body & notice & reply & _ & _ & Ho)]; eauto.
  - destruct (schedule_remove_effects self author i e)
      as [(_ & msg & Ho) | (eid & notice & reply & _ & _ & Ho)]; eauto.
Qed.

(** X11. The snapshot of a user changes only by a view of that same user that
    fetched the day: no add, no remove and no view of somebody else
    touches it, nor does a view that stopped before the fetch. *)
Theorem a_snapshot_changes_only_by_its_owners_view c self e author :
  last_viewed_events (fst (run c self e)) !! author
  <> last_viewed_events self !! author ->
  exists today day_str d,
    c = view_command today author day_str
    /\ parse_relative_date parser_parse today day_str = Return (Some d)
    /\ calls (snd (run c self e))
       = (calls e ++ [events_list_call (d * US_PER_DAY)
                        (d * US_PER_DAY + (US_PER_DAY - 1))])%list.
Proof.
  destruct c as [today a day_str | now summary_ time_str minutes | a i]; cbn [run].
  - destruct (schedule_view_effects self today a day_str e)
      as [(_ & Hself & _) | (svc & d & records & chunks & notice & _ & Hp & Hc & Hl & _)].
    + rewrite Hself. congruence.
    + rewrite Hl. intros Hne. destruct (decide (a = author)) as [-> | Hna].
      * now exists today, day_str, d.
      * rewrite lookup_insert_ne in Hne by assumption. congruence.
  - rewrite schedule_add_keeps_cog. congruence.
  - rewrite schedule_remove_keeps_cog. congruence.
Qed.

End CommandProperties.

(** ** Snapshots that grow stale, and what the replies tell *)
Section SessionProperties.

Context `{C : Collaborators}.

Lemma run_keeps_other_snapshots c self e author :
  (forall today day_str, c <> view_command today author day_str) ->
  last_viewed_events (fst (run c self e)) !! author = last_viewed_events self !! author.
Proof.
  intros Hc. destruct c as [today a day_str | now summary_ time_str minutes | a i];
    cbn [run].
  - destruct (schedule_view_effects self today a day_str e)
      as [(_ & Hself & _) | (svc & d & records & chunks & notice & _ & _ & _ & Hl & _)].
    + now rewrite Hself.
    + rewrite Hl. apply lookup_insert_ne. intros ->. now apply (Hc today day_str).
  - now rewrite schedule_add_keeps_cog.
  - now rewrite schedule_remove_keeps_cog.
Qed.

Lemma run_all_keeps_the_snapshot cs self e author :
  Forall (fun c => forall today day_str, c <> view_command today author day_str) cs ->
  calendar_service (fst (run_all cs self e)) = calendar_service self
  /\ last_viewed_events (fst (run_all cs self e)) !! author
     = last_viewed_events self !! author.
Proof.
  intros H. revert self e. induction H as [| c cs Hc _ IH]; intros self e; [now split |].
  cbn [run_all]. pose proof (run_keeps_service c self e) as Hs.
  pose proof (run_keeps_other_snapshots c self e author Hc) as Hl.
  destruct (run c self e) as [self' e']. cbn [fst] in *.
  destruct (IH self' e') as [IH1 IH2]. split; congruence.
Qed.

Lemma schedule_view_snapshot self e today author day_str d p events svc :
  calendar_service self = Some svc ->
  parse_relative_date parser_parse today day_str = Return (Some d) ->
  events_list (remote e) (d * US_PER_DAY) (d * US_PER_DAY + (US_PER_DAY - 1))
  = (p, Return events) ->
  last_viewed_events (fst (schedule_view self today author day_str e)) !! author
  = Some (map details_of events).
Proof.
  intros Hs Hparse Hlist. unfold schedule_view. rewrite Hs, Hparse.
  destruct (get_events_for_day_records svc d
              (send ("Fetching schedule for " ++ strftime_A_B_d_Y d
                       ++ " from Google Calendar...") e) p events Hlist)
    as (text & e2 & Hg).
  rewrite Hg. cbn [fst last_viewed_events]. apply lookup_insert_eq.
Qed.

Lemma schedule_remove_calls self author i e svc records eid label title :
  calendar_service self = Some svc ->
  last_viewed_events self !! author = Some records ->
  1 <= i ->
  records !! Z.to_nat (i - 1) = Some (eid, label, title) ->
  calls (snd (schedule_remove self author i e))
  = (calls e ++ [events_delete_call eid])%list.
Proof.
  intros Hs Hl Hi Hr.
  rewrite (schedule_remove_deletes self author i e svc records eid label title Hs Hl Hi Hr).
  cbn [snd calls send].
  match goal with
  | |- context [remove_calendar_event (Some svc) eid ?e1] =>
      destruct (remove_calendar_event_calls svc eid e1) as (Hc & _)
  end.
  exact Hc.
Qed.

(** X12. The indices of a view stay bound to the events it listed until the
    same user views again: whatever the commands in between, of this user
    or of others, [remove i] asks for the deletion of the event that the
    view showed under [i], be it still in the calendar or not. *)
Theorem indices_stay_bound_until_the_next_view
    self e today author day_str d p events i ev cs :
  reachable self e ->
  parse_relative_date parser_parse today day_str = Return (Some d) ->
  events_list (remote e) (d * US_PER_DAY) (d * US_PER_DAY + (US_PER_DAY - 1))
  = (p, Return events) ->
  1 <= i -> events !! Z.to_nat (i - 1) = Some ev ->
  Forall (fun c => forall today' day_str', c <> view_command today' author day_str') cs ->
  let viewed := schedule_view self today author day_str e in
  let later := run_all cs (fst viewed) (snd viewed) in
  calls (snd (schedule_remove (fst later) author i (snd later)))
  = (calls (snd later) ++ [events_delete_call (id ev)])%list.
Proof.
  intros Hreach Hparse Hlist Hi Hev Hcs viewed later.
  destruct (reachable_has_service _ _ Hreach) as [svc Hs].
  destruct (run_all_keeps_the_snapshot cs (fst viewed) (snd viewed) author Hcs)
    as [Hs' Hl'].
  fold later in Hs', Hl'. subst viewed.
  rewrite schedule_view_keeps_service, Hs in Hs'.
  rewrite (schedule_view_snapshot self e today author day_str d p events svc
             Hs Hparse Hlist) in Hl'.
  apply (schedule_remove_calls _ author i _ svc (map details_of events)
           (id ev) (time_label ev) (event_summary_of ev) Hs' Hl' Hi).
  rewrite list_lookup_fmap, Hev. reflexivity.
Qed.

(** X13. The snapshot is not updated by a removal: removing the same index
    twice asks the provider twice to delete the same event. *)
Theorem removing_twice_asks_twice self author i e svc records eid label title :
  calendar_service self = Some svc ->
  last_viewed_events self !! author = Some records ->
  1 <= i ->
  records !! Z.to_nat (i - 1) = Some (eid, label, title) ->
  let once := schedule_remove self author i e in
  let twice := schedule_remove (fst once) author i (snd once) in
  calls (snd twice) = (calls e ++ [events_delete_call eid; events_delete_call eid])%list.
Proof.
  intros Hs Hl Hi Hr once twice. subst twice.
  assert (Hself : fst once = self) by apply schedule_remove_keeps_cog.
  rewrite Hself.
  rewrite (schedule_remove_calls self author i (snd once) svc records eid label title
             Hs Hl Hi Hr).
  subst once.
  rewrite (schedule_remove_calls self author i e svc records eid label title
             Hs Hl Hi Hr).
  now rewrite <- app_assoc.
Qed.

(** X14. A view whose day is not understood, or whose resolution raises, asks
    the provider nothing, keeps every snapshot and answers with one
    message. *)
Theorem a_view_of_an_unknown_day_fetches_nothing self today author day_str e :
  (forall d, parse_relative_date parser_parse today day_str <> Return (Some d)) ->
  fst (schedule_view self today author day_str e) = self
  /\ calls (snd (schedule_view self today author day_str e)) = calls e
  /\ remote (snd (schedule_view self today author day_str e)) = remote e
  /\ exists msg, outbox (snd (schedule_view self today author day_str e))
                 = (outbox e ++ [msg])%list.
Proof.
  intros Hno. unfold schedule_view.
  destruct (calendar_service self); [| repeat split; eexists; reflexivity].
  destruct (parse_relative_date _ _ _) as [[d |] | ex];
    [now destruct (Hno d) | |]; repeat split; eexists; reflexivity.
Qed.


End SessionProperties.

(** ** The fetcher and the daily summary *)
Section DailyProperties.

Context `{C : Collaborators}.

Lemma prefix_other_head c p c' s :
  c <> c' -> String.prefix (String c p) (String c' s) = false.
Proof. intros H. simpl. destruct (Ascii.ascii_dec c c'); [contradiction | reflexivity]. Qed.

Lemma listed_summary_head d lines :
  exists rest, PyStr.join newline (schedule_header d :: lines) = String "*" rest.
Proof.
  unfold PyStr.join, schedule_header. destruct lines as [| l ls]; cbn [String.concat];
    rewrite !append_cons; eauto.
Qed.

(** The summary of a fetch tells its three outcomes apart by its first
    characters: it carries an error prefix exactly when the request
    raised, and starts with "No events found" exactly when the request
    returned no event. *)
Lemma summary_prefix_cases svc d e :
  let answer :=
    snd (events_list (remote e) (d * US_PER_DAY) (d * US_PER_DAY + (US_PER_DAY - 1))) in
  let text := fst (fst (get_events_for_day (Some svc) d e)) in
  (signals_error text = true <-> exists ex, answer = Raise ex)
  /\ (PyStr.startswith text "No events found" = true <-> answer = Return []).
Proof.
  cbv zeta. unfold get_events_for_day, execute_list.
  destruct (events_list (remote e) (d * US_PER_DAY) (d * US_PER_DAY + (US_PER_DAY - 1)))
    as [p [[| ev rest] | ex]]; cbn [snd].
  - cbn [fst]. split; split; try reflexivity; try discriminate.
    intros [ex H]. discriminate.
  - rewrite render_events_spec. cbn [fst app].
    destruct (listed_summary_head d (imap (line_of 1) (ev :: rest))) as [tl ->].
    unfold signals_error, PyStr.startswith.
    rewrite !prefix_other_head by discriminate.
    split; split; try discriminate. intros [ex H]. discriminate.
  - split; split; try discriminate; try (intros _; now exists ex).
    + intros _. destruct ex; reflexivity.
    + destruct ex; cbn [fst]; discriminate.
Qed.

Lemma replace_scan_skip old new a rest :
  replace_scan old new (a ++ rest) (String.length a) = replace_scan old new rest 0.
Proof.
  induction a as [| c a IH]; [reflexivity |]. rewrite append_cons. exact IH.
Qed.

Lemma prefix_append a b : String.prefix a (a ++ b) = true.
Proof.
  induction a as [| c a IH]; [now destruct b |].
  rewrite append_cons. simpl. now destruct (Ascii.ascii_dec c c).
Qed.

(** An occurrence at the head is replaced, and the scan goes on behind it. *)
Lemma replace_at_head old new rest :
  old <> "" -> replace (old ++ rest) old new = new ++ replace rest old new.
Proof.
  intros Hne. destruct old as [| c o]; [congruence |]. unfold replace.
  rewrite append_cons. cbn [replace_scan].
  change (String c (o ++ rest)) with (String c o ++ rest). rewrite prefix_append.
  f_equal. replace (String.length (String c o) - 1)%nat with (String.length o)
    by (simpl; lia).
  apply replace_scan_skip.
Qed.

(** Without an occurrence, nothing changes. *)
Lemma replace_absent old new s :
  old <> "" -> PyStr.contains old s = false -> replace s old new = s.
Proof.
  intros Hne. destruct old as [| c o]; [congruence |]. unfold replace.
  induction s as [| x s IH]; [reflexivity |]. intros H.
  cbn [PyStr.contains] in H. apply orb_false_iff in H as [H1 H2].
  cbn [replace_scan]. rewrite H1. f_equal. auto.
Qed.

Lemma join_header header l ls :
  PyStr.join newline (header :: l :: ls)
  = header ++ newline ++ PyStr.join newline (l :: ls).
Proof. reflexivity. Qed.

(** X16. The daily summary in its two degraded modes. When the fetch fails the
    channel gets the warning with the error summary; when the day has no
    event it gets the greeting that names the day. *)
Theorem daily_summary_degraded_modes self svc today e :
  calendar_service self = Some svc ->
  let answer :=
    snd (events_list (remote e) (today * US_PER_DAY)
           (today * US_PER_DAY + (US_PER_DAY - 1))) in
  let text := fst (fst (get_events_for_day (Some svc) today e)) in
  ((exists ex, answer = Raise ex) ->
   fst (daily_schedule_summary self true today e)
   = send_long_message
       ("⚠️ Could not fetch daily schedule summary. Error: " ++ text))
  /\ (answer = Return [] ->
      fst (daily_schedule_summary self true today e)
      = send_long_message
          ("☀️ Good morning! No events scheduled for today ("
             ++ strftime_A_B_d today ++ ").")).
Proof.
  intros Hs answer text.
  destruct (summary_prefix_cases svc today e) as [Herr Hnone].
  fold answer text in Herr, Hnone.
  unfold daily_schedule_summary. rewrite Hs.
  destruct (get_events_for_day (Some svc) today e) as [[summary_text records] e1] eqn:Hg.
  cbn [fst] in *. subst text. unfold daily_message. split.
  - intros Hex. apply Herr in Hex. unfold signals_error in Hex. now rewrite Hex.
  - intros Hret. pose proof Hret as Hret'. apply Hnone in Hret.
    destruct (PyStr.startswith summary_text "Error:"
              || PyStr.startswith summary_text "An unexpected error") eqn:E.
    + apply Herr in E as [ex E]. congruence.
    + now rewrite Hret.
Qed.

(** X17. The daily summary of a day with events: the schedule of the fetch
    with its header retitled for today, the lines of the events as they
    are when none of them contains the text of the header. *)
Theorem daily_summary_retitles_the_schedule self svc today e p ev rest :
  calendar_service self = Some svc ->
  events_list (remote e) (today * US_PER_DAY) (today * US_PER_DAY + (US_PER_DAY - 1))
  = (p, Return (ev :: rest)) ->
  PyStr.contains (schedule_header today)
    (newline ++ PyStr.join newline (imap (line_of 1) (ev :: rest))) = false ->
  fst (daily_schedule_summary self true today e)
  = send_long_message
      (PyStr.join newline (today_header today :: imap (line_of 1) (ev :: rest))).
Proof.
  intros Hs Hlist Hfree.
  destruct (summary_prefix_cases svc today e) as [Herr Hnone].
  pose proof (get_events_for_day_listed svc today e p ev rest Hlist) as Hg.
  rewrite Hlist in Herr, Hnone. cbn [snd] in Herr, Hnone.
  unfold daily_schedule_summary. rewrite Hs.
  destruct (get_events_for_day (Some svc) today e) as [[summary_text records] e1].
  cbn [fst] in *.
  assert (Hsum : summary_text
                 = PyStr.join newline
                     (schedule_header today :: imap (line_of 1) (ev :: rest)))
    by congruence.
  clear Hg. subst summary_text. unfold daily_message.
  assert (E : signals_error
                (PyStr.join newline (schedule_header today :: imap (line_of 1) (ev :: rest)))
              = false).
  { destruct (signals_error _); [| reflexivity].
    destruct Herr as [Herr _]. destruct (Herr eq_refl) as [ex Hex]. discriminate. }
  assert (E2 : PyStr.startswith
                 (PyStr.join newline (schedule_header today :: imap (line_of 1) (ev :: rest)))
                 "No events found" = false).
  { destruct (PyStr.startswith _ _); [| reflexivity].
    destruct Hnone as [Hnone _]. specialize (Hnone eq_refl). discriminate. }
  unfold signals_error in E. rewrite E, E2.
  f_equal. cbn [imap] in *. rewrite !join_header.
  rewrite replace_at_head by (unfold schedule_header; destruct (strftime_A_B_d_Y today); discriminate).
  f_equal. apply replace_absent; [| exact Hfree].
  unfold schedule_header. discriminate.
Qed.

End DailyProperties.

(** ** What the summary of a fetch tells *)
Section SummaryProperties.

Context `{C : Collaborators}.

(** X18. The summary of a fetch tells its three outcomes apart by its first
    characters, as [daily_schedule_summary] reads it: an error prefix when
    the request raised, "No events found" when it returned no event, the
    header of a schedule otherwise; and only a day with events leaves
    records, one for each event. *)
Theorem the_summary_tells_the_outcome svc d e :
  let answer :=
    snd (events_list (remote e) (d * US_PER_DAY) (d * US_PER_DAY + (US_PER_DAY - 1))) in
  let text := fst (fst (get_events_for_day (Some svc) d e)) in
  let records := snd (fst (get_events_for_day (Some svc) d e)) in
  match answer with
  | Raise ex =>
      signals_error text = true
      /\ PyStr.startswith text "No events found" = false /\ records = []
  | Return [] =>
      signals_error text = false
      /\ PyStr.startswith text "No events found" = true /\ records = []
  | Return (ev :: rest) =>
      signals_error text = false
      /\ PyStr.startswith text "No events found" = false
      /\ PyStr.startswith text "**Schedule for " = true
      /\ records = map details_of (ev :: rest)
  end.
Proof.
  cbv zeta. destruct (summary_prefix_cases svc d e) as [Herr Hnone].
  destruct (events_list (remote e) (d * US_PER_DAY) (d * US_PER_DAY + (US_PER_DAY - 1)))
    as [p [[| ev rest] | ex]] eqn:Hlist; cbn [snd] in *.
  - split; [| split].
    + destruct (signals_error _); [| reflexivity].
      destruct Herr as [Herr _]. destruct (Herr eq_refl) as [ex Hex]. discriminate.
    + now apply Hnone.
    + unfold get_events_for_day, execute_list. now rewrite Hlist.
  - split; [| split; [| split]].
    + destruct (signals_error _); [| reflexivity].
      destruct Herr as [Herr _]. destruct (Herr eq_refl) as [ex Hex]. discriminate.
    + destruct (PyStr.startswith _ _); [| reflexivity].
      destruct Hnone as [Hnone _]. specialize (Hnone eq_refl). discriminate.
    + rewrite (get_events_for_day_listed svc d e p ev rest Hlist). cbn [fst].
      assert (Hhead : exists tl,
                 PyStr.join newline (schedule_header d :: imap (line_of 1) (ev :: rest))
                 = "**Schedule for " ++ tl).
      { cbn [imap]. rewrite join_header. unfold schedule_header.
        rewrite <- append_assoc. eauto. }
      destruct Hhead as [tl ->]. apply prefix_append.
    + now rewrite (get_events_for_day_listed svc d e p ev rest Hlist).
  - split; [| split].
    + apply Herr. now exists ex.
    + destruct (PyStr.startswith _ _); [| reflexivity].
      destruct Hnone as [Hnone _]. specialize (Hnone eq_refl). discriminate.
    + destruct (get_events_for_day_raised svc d e p ex Hlist) as (text & e' & Hg & _).
      now rewrite Hg.
Qed.

(** X19. The daily summary asks the provider once, for the window of today,
    and leaves the replies to the commands alone; without a channel it
    asks nothing and sends nothing. *)
Theorem daily_summary_asks_once self svc today e :
  calendar_service self = Some svc ->
  daily_schedule_summary self false today e = ([], e)
  /\ calls (snd (daily_schedule_summary self true today e))
     = (calls e ++ [events_list_call (today * US_PER_DAY)
                      (today * US_PER_DAY + (US_PER_DAY - 1))])%list
  /\ remote (snd (daily_schedule_summary self true today e))
     = fst (events_list (remote e) (today * US_PER_DAY)
              (today * US_PER_DAY + (US_PER_DAY - 1)))
  /\ outbox (snd (daily_schedule_summary self true today e)) = outbox e.
Proof.
  intros Hs. unfold daily_schedule_summary. rewrite Hs. split; [reflexivity |].
  unfold get_events_for_day, execute_list.
  destruct (events_list (remote e) (today * US_PER_DAY)
              (today * US_PER_DAY + (US_PER_DAY - 1))) as [p [[| ev rest] | ex]];
    cbn [fst snd].
  - now repeat split.
  - destruct (render_events _ _ _ _). now repeat split.
  - destruct ex; now repeat split.
Qed.

End SummaryProperties.

(** ** The properties at work on the test double *)
Lemma send_long_message_fits_witness :
  Forall (fun m => 1 <= DiscordUtils.len m <= DiscordUtils.MAX_LENGTH)
    (DiscordUtils.send_long_message "Standup at 09:30, review at 15:00" "> ").
Proof.
  apply (send_long_message_fits "Standup at 09:30, review at 15:00" "> ").
  reflexivity.
Defined.

Lemma send_long_message_keeps_the_text_witness :
  DiscordUtils.without_space
    (DiscordUtils.put_together
       (DiscordUtils.send_long_message "Standup at 09:30, review at 15:00" "> "))
  = DiscordUtils.without_space ("> " ++ "Standup at 09:30, review at 15:00").
Proof.
  apply (send_long_message_keeps_the_text "Standup at 09:30, review at 15:00" "> ").
  reflexivity.
Defined.

Lemma send_long_message_one_message_witness :
  DiscordUtils.send_long_message "Standup" "> " = ["> " ++ "Standup"].
Proof.
  apply (send_long_message_one_message "Standup" "> ").
  - reflexivity.
  - vm_compute. split; discriminate.
Defined.

Lemma send_long_message_cuts_witness :
  exists second rest,
    DiscordUtils.send_long_message ("Standup" ++ newline ++ "Review") ""
    = ("" ++ PyStr.strip (DiscordUtils.slice ("Standup" ++ newline ++ "Review") 0 7))
        :: second :: rest.
Proof.
  apply (send_long_message_cuts_at_last_line_feed
           ("Standup" ++ newline ++ "Review") "" 7).
  - reflexivity.
  - vm_compute. split; reflexivity.
  - reflexivity.
  - intros q [Hlo Hhi].
    change (Z.min (DiscordUtils.MAX_LENGTH - DiscordUtils.len "")
              (DiscordUtils.len ("Standup" ++ newline ++ "Review"))) with 14 in Hhi.
    do 14 (destruct q as [| q]; [try lia; vm_compute; discriminate |]). lia.
  - vm_compute. discriminate.
Defined.

Lemma daily_summary_degraded_modes_witness :
  fst (daily_schedule_summary (C := double) cog true day (quiet outage))
  = ["⚠️ Could not fetch daily schedule summary. Error: "
       ++ "Error: An HTTP error occurred while fetching the schedule: Service Unavailable"].
Proof.
  apply (daily_summary_degraded_modes (C := double) cog CalendarService day (quiet outage)).
  - reflexivity.
  - now exists (HttpError 503 "Service Unavailable").
Defined.

Lemma daily_summary_retitles_the_schedule_witness :
  fst (daily_schedule_summary (C := double) cog true day (quiet three_events))
  = [PyStr.join newline
       (today_header day :: imap (line_of (C := double) 1) [standup; holiday; review])].
Proof.
  apply (daily_summary_retitles_the_schedule (C := double) cog CalendarService day
           (quiet three_events) three_events standup [holiday; review]).
  - reflexivity.
  - reflexivity.
  - vm_compute. reflexivity.
Defined.

Lemma daily_summary_asks_once_witness :
  calls (snd (daily_schedule_summary (C := double) cog true day (quiet three_events)))
  = [events_list_call (day * US_PER_DAY) (day * US_PER_DAY + (US_PER_DAY - 1))].
Proof.
  apply (daily_summary_asks_once (C := double) cog CalendarService day (quiet three_events)).
  reflexivity.
Defined.

Lemma a_snapshot_changes_only_by_its_owners_view_witness :
  exists today day_str d,
    view_command day 7 "today" = view_command today 7 day_str
    /\ parse_relative_date (parser_parse (Collaborators := double)) today day_str
       = Return (Some d)
    /\ calls (snd (run (C := double) (view_command day 7 "today") cog (quiet three_events)))
       = ([] ++ [events_list_call (d * US_PER_DAY) (d * US_PER_DAY + (US_PER_DAY - 1))])%list.
Proof.
  apply (a_snapshot_changes_only_by_its_owners_view (C := double)
           (view_command day 7 "today") cog (quiet three_events) 7).
  vm_compute. discriminate.
Defined.

Lemma indices_stay_bound_until_the_next_view_witness :
  let viewed := schedule_view (C := double) cog day 7 "today" (quiet three_events) in
  let later :=
    run_all (C := double)
      [add_command (day * US_PER_DAY) "Lunch" "friday" 30;
       view_command day 8 "tomorrow"; remove_command 7 1]
      (fst viewed) (snd viewed) in
  calls (snd (schedule_remove (fst later) 7 2 (snd later)))
  = (calls (snd later) ++ [events_delete_call "ev2"])%list.
Proof.
  apply (indices_stay_bound_until_the_next_view (C := double) cog (quiet three_events)
           day 7 "today" day three_events [standup; holiday; review] 2 holiday).
  - apply cog_reachable.
  - reflexivity.
  - reflexivity.
  - lia.
  - reflexivity.
  - repeat constructor; intros today' day_str' H; discriminate H.
Defined.

Lemma removing_twice_asks_twice_witness :
  let once := schedule_remove (fst viewed) 7 2 (snd viewed) in
  let twice := schedule_remove (fst once) 7 2 (snd once) in
  calls (snd twice)
  = (calls (snd viewed) ++ [events_delete_call "ev2"; events_delete_call "ev2"])%list.
Proof.
  apply (removing_twice_asks_twice (C := double) (fst viewed) 7 2 (snd viewed)
           CalendarService (map (details_of (C := double)) (held three_events))
           "ev2" "All Day" "Holiday").
  - reflexivity.
  - reflexivity.
  - lia.
  - reflexivity.
Defined.

Lemma a_view_of_an_unknown_day_fetches_nothing_witness :
  fst (schedule_view (C := double) cog day 7 "someday" (quiet three_events)) = cog
  /\ calls (snd (schedule_view (C := double) cog day 7 "someday" (quiet three_events))) = []
  /\ remote (snd (schedule_view (C := double) cog day 7 "someday" (quiet three_events)))
     = three_events
  /\ exists msg,
       outbox (snd (schedule_view (C := double) cog day 7 "someday" (quiet three_events)))
       = ([] ++ [msg])%list.
Proof.
  apply (a_view_of_an_unknown_day_fetches_nothing (C := double) cog day 7 "someday"
           (quiet three_events)).
  intros d. vm_compute. discriminate.
Defined.


Lemma any_case_Friday : any_case "Friday" "friday".
Proof.
  apply (any_case_capital "F" "f"); [vm_compute; split; discriminate | reflexivity |].
  repeat apply any_case_small. constructor.
Defined.

Lemma a_weekday_name_does_not_reach_the_weekday_branch_witness :
  Dateutil.parse rejecting "Friday" (combine day 0) <> Raise ParserError
  /\ parse_relative_date (Dateutil.parse rejecting) day "Friday"
     = match Dateutil.parse rejecting "Friday" (combine day 0) with
       | Return parsed_dt => Return (Some (date_of parsed_dt))
       | Raise _ => Return None
       end.
Proof.
  apply (a_weekday_name_does_not_reach_the_weekday_branch rejecting day 4 "friday" "Friday").
  - reflexivity.
  - exact any_case_Friday.
Defined.

Lemma a_weekday_name_resolves_to_its_coming_day_witness :
  exists j, 0 <= j <= 6 /\ weekday (day + j) = 4
            /\ (j = 0 <-> weekday day = 4)
            /\ parse_relative_date (Dateutil.parse rejecting) day "Friday"
               = Return (Some (day + j)).
Proof.
  apply (a_weekday_name_resolves_to_its_coming_day rejecting day 4 "friday" "Friday").
  - reflexivity.
  - exact any_case_Friday.
  - unfold valid_date. vm_compute. split; discriminate.
  - unfold valid_date. vm_compute. split; discriminate.
Defined.

Lemma parse_relative_date_does_not_raise_witness :
  exists r, parse_relative_date rejecting day "someday" = Return r.
Proof.
  apply (parse_relative_date_does_not_raise rejecting day "someday").
  vm_compute. split; discriminate.
Defined.
